(** * snmpvlantrunk: VLAN trunk octet strings

    A shallow embedding of [snmpvlantrunk.py] and the properties of its
    codec: group partitioning, bit reversal, the hex octet-string grammar
    and the per-group bit mask ([VlanTrunkModeList]).

    Python [int] is modelled by [Z]; Python [str] by [list ascii] (one
    element per character, code points below 256); [bytes] by a list of
    [Z] in [0, 255]; a raised exception by the [Raise] constructor of
    [result]. *)

From Stdlib Require Import ZArith List Ascii String Bool Lia Permutation Sorted.
From Equations Require Import Equations.
Import ListNotations.

Local Open Scope Z_scope.

(** ** Exceptions *)

Inductive exn : Type :=
| ValueError
| OverflowError.

Inductive result (A : Type) : Type :=
| Ok (a : A)
| Raise (e : exn).

Arguments Ok {A} a.
Arguments Raise {A} e.

Definition bind {A B : Type} (m : result A) (f : A -> result B) : result B :=
  match m with
  | Ok a => f a
  | Raise e => Raise e
  end.

Notation "x <- m ;; k" := (bind m (fun x => k))
  (at level 61, m at next level, right associativity).

(** ** The builtins the module uses *)

Module Py.

Definition str : Type := list ascii.

Definition lit (s : string) : str := list_ascii_of_string s.

Definition code (c : ascii) : Z := Z.of_N (N_of_ascii c).

Definition chr_eqb (a b : ascii) : bool := Ascii.eqb a b.

Definition len (s : str) : Z := Z.of_nat (List.length s).

(** [1 << n]: a negative shift count raises [ValueError]. *)
Definition lshift (a n : Z) : result Z :=
  if n <? 0 then Raise ValueError else Ok (Z.shiftl a n).

(** Binary digits of a positive number, most significant first. *)
Fixpoint pos_digits (p : positive) (acc : str) : str :=
  match p with
  | xH => "1"%char :: acc
  | xO q => pos_digits q ("0"%char :: acc)
  | xI q => pos_digits q ("1"%char :: acc)
  end.

(** [bin(x)] *)
Definition bin (x : Z) : str :=
  match x with
  | Z0 => lit "0b0"
  | Zpos p => lit "0b" ++ pos_digits p []
  | Zneg p => lit "-0b" ++ pos_digits p []
  end.

Definition mem (c : ascii) (chars : str) : bool := existsb (chr_eqb c) chars.

(** [s.lstrip(chars)]: drops every leading character that occurs in
    [chars]. *)
Fixpoint lstrip (chars : str) (s : str) : str :=
  match s with
  | [] => []
  | c :: t => if mem c chars then lstrip chars t else s
  end.

Definition is_sign (c : ascii) : bool :=
  chr_eqb c "+"%char || chr_eqb c "-"%char.

(** [s.zfill(width)]: zeros go after a leading sign; a string already
    [width] long is returned as it is. *)
Definition zfill (width : Z) (s : str) : str :=
  if width <=? len s then s
  else
    let pad := repeat "0"%char (Z.to_nat (width - len s)) in
    match s with
    | c :: t => if is_sign c then c :: pad ++ t else pad ++ s
    | [] => pad
    end.

(** [s.count(c)] for a one-character [c]. *)
Definition count (c : ascii) (s : str) : Z :=
  Z.of_nat (List.length (filter (chr_eqb c) s)).

(** Value of a digit character in [int(s, base)]. *)
Definition digit_value (c : ascii) : option Z :=
  let n := code c in
  if (48 <=? n) && (n <=? 57) then Some (n - 48)
  else if (97 <=? n) && (n <=? 122) then Some (n - 87)
  else if (65 <=? n) && (n <=? 90) then Some (n - 55)
  else None.

Fixpoint int_digits (base acc : Z) (s : str) : result Z :=
  match s with
  | [] => Ok acc
  | c :: t =>
      match digit_value c with
      | Some d => if d <? base then int_digits base (base * acc + d) t
                  else Raise ValueError
      | None => Raise ValueError
      end
  end.

(** [int(s, base)] on the literals the module builds: a non-empty run of
    digits of the base.  Every other string the module can pass (the
    empty one, or the reversed text of a negative number, which ends in
    a minus sign) raises [ValueError]. *)
Definition int (s : str) (base : Z) : result Z :=
  match s with
  | [] => Raise ValueError
  | _ => int_digits base 0 s
  end.

(** [str.isspace] on one character. *)
Definition isspace (c : ascii) : bool :=
  let n := code c in
  ((9 <=? n) && (n <=? 13)) || ((28 <=? n) && (n <=? 32))
  || (n =? 133) || (n =? 160).

Fixpoint split_from (cur : str) (s : str) : list str :=
  match s with
  | [] => match cur with [] => [] | _ => [rev cur] end
  | c :: t =>
      if isspace c then
        match cur with
        | [] => split_from [] t
        | _ => rev cur :: split_from [] t
        end
      else split_from (c :: cur) t
  end.

(** [s.split()]: the maximal runs of non-whitespace characters. *)
Definition split (s : str) : list str := split_from [] s.

(** [sep.join(parts)] *)
Fixpoint join (sep : str) (parts : list str) : str :=
  match parts with
  | [] => []
  | [x] => x
  | x :: rest => x ++ sep ++ join sep rest
  end.

Fixpoint to_bytes_little (n : nat) (x : Z) : list Z :=
  match n with
  | O => []
  | S k => (x mod 256) :: to_bytes_little k (x / 256)
  end.

(** [x.to_bytes(n, 'big')], unsigned. *)
Definition to_bytes (x : Z) (n : Z) : result (list Z) :=
  if x <? 0 then Raise OverflowError
  else if 2 ^ (8 * n) <=? x then Raise OverflowError
  else Ok (rev (to_bytes_little (Z.to_nat n) x)).

Definition hex_digit (d : Z) : ascii :=
  nth (Z.to_nat d) (lit "0123456789abcdef") "0"%char.

(** [b.hex()] *)
Definition hex (b : list Z) : str :=
  flat_map (fun x => [hex_digit (x / 16); hex_digit (x mod 16)]) b.

Definition upper_char (c : ascii) : ascii :=
  let n := code c in
  if (97 <=? n) && (n <=? 122) then ascii_of_N (Z.to_N (n - 32)) else c.

(** [s.upper()] on ASCII text. *)
Definition upper (s : str) : str := map upper_char s.

(** [s[::2]] *)
Fixpoint stride2 (s : str) : str :=
  match s with
  | [] => []
  | [c] => [c]
  | c :: _ :: t => c :: stride2 t
  end.

(** [s[1::2]] *)
Definition stride2_from1 (s : str) : str := stride2 (tl s).

(** [range(n)] *)
Definition range (n : Z) : list Z := map Z.of_nat (seq 0 (Z.to_nat n)).

(** [sorted(l)] on integers. *)
Fixpoint insert (x : Z) (l : list Z) : list Z :=
  match l with
  | [] => [x]
  | y :: t => if x <=? y then x :: l else y :: insert x t
  end.

Fixpoint sorted (l : list Z) : list Z :=
  match l with
  | [] => []
  | x :: t => insert x (sorted t)
  end.

(** [s.startswith(prefix)] *)
Fixpoint startswith (s prefix : str) {struct prefix} : bool :=
  match prefix with
  | [] => true
  | p :: prefix' =>
      match s with
      | c :: s' => chr_eqb c p && startswith s' prefix'
      | [] => false
      end
  end.

(** A [dict] with integer keys: the items in insertion order. *)
Definition dict (V : Type) : Type := list (Z * V).

(** [d.get(key)]; [key in d] is [dict_get d key] being [Some _]. *)
Fixpoint dict_get {V : Type} (d : dict V) (key : Z) : option V :=
  match d with
  | [] => None
  | (k, x) :: rest => if k =? key then Some x else dict_get rest key
  end.

(** [d[key] = v]: an existing key keeps its place, a new one goes last. *)
Fixpoint dict_set {V : Type} (d : dict V) (key : Z) (v : V) : dict V :=
  match d with
  | [] => [(key, v)]
  | (k, x) :: rest =>
      if k =? key then (k, v) :: rest else (k, x) :: dict_set rest key v
  end.



End Py.

(** ** Regular expressions, as [re.match] runs them

    Only the constructs of [VLAN_TRUNK_STRING_REGEX] are present.  The
    matcher is written with a continuation, which receives the number of
    characters consumed and the rest of the subject. *)

Inductive regex : Type :=
| Bol                                  (* ^ *)
| Eol                                  (* $ *)
| Class (p : ascii -> bool)            (* [...] or a literal character *)
| Cat (r1 r2 : regex)
| Rep (n : nat) (r : regex).           (* r{n} *)

Fixpoint rmatch (r : regex) (pos : nat) (s : Py.str)
                (k : nat -> Py.str -> bool) {struct r} : bool :=
  match r with
  | Bol => Nat.eqb pos 0 && k pos s
  | Eol =>
      (* the end of the subject, or just before a newline that ends it *)
      match s with
      | [] => k pos s
      | [c] => Py.chr_eqb c "010"%char && k pos s
      | _ => false
      end
  | Class p =>
      match s with
      | c :: t => p c && k (S pos) t
      | [] => false
      end
  | Cat r1 r2 => rmatch r1 pos s (fun pos' s' => rmatch r2 pos' s' k)
  | Rep n r1 =>
      (fix rep (n : nat) (pos : nat) (s : Py.str) : bool :=
         match n with
         | O => k pos s
         | S m => rmatch r1 pos s (fun pos' s' => rep m pos' s')
         end) n pos s
  end.

(** [re.compile(r).match(s)] as a truth value. *)
Definition re_match (r : regex) (s : Py.str) : bool :=
  rmatch r 0 s (fun _ _ => true).

(** ** Module constants *)

Definition MIN_VLAN : Z := 1.
Definition MAX_VLAN : Z := 4094.
Definition VLAN_GROUP_COUNT : Z := 4.
Definition VLAN_GROUP_SIZE : Z := 1024.
(** [int(VLAN_GROUP_SIZE / 8)] *)
Definition BYTES_PER_GROUP : Z := VLAN_GROUP_SIZE / 8.

(** The character class [[0-9A-F]]. *)
Definition upper_hex (c : ascii) : bool :=
  let n := Py.code c in
  ((48 <=? n) && (n <=? 57)) || ((65 <=? n) && (n <=? 70)).

Definition space : ascii := " "%char.

(** [^([0-9A-F]{2})( [0-9A-F]{2}){127}$] *)
Definition VLAN_TRUNK_STRING_REGEX : regex :=
  Cat Bol
    (Cat (Rep 2 (Class upper_hex))
       (Cat (Rep (Z.to_nat (BYTES_PER_GROUP - 1))
               (Cat (Class (Py.chr_eqb space)) (Rep 2 (Class upper_hex))))
          Eol)).

(** ** Module functions *)

Definition validate_vlan (vlan_id : Z) (safe : bool) : result bool :=
  if (vlan_id >=? MIN_VLAN) && (vlan_id <=? MAX_VLAN) then Ok true
  else if safe then Ok false
  else Raise ValueError.

Definition is_valid_vlan (vlan_id : Z) : result bool :=
  validate_vlan vlan_id true.

(** The [while test_value > VLAN_GROUP_SIZE] loop of [group_for_vlan]. *)
Equations? group_for_vlan_loop (group test_value : Z) : Z
  by wf (Z.to_nat test_value) lt :=
  group_for_vlan_loop group test_value
    with Z_gt_le_dec test_value VLAN_GROUP_SIZE => {
    | left _ => group_for_vlan_loop (group + 1) (test_value - VLAN_GROUP_SIZE)
    | right _ => group }.
Proof. unfold VLAN_GROUP_SIZE in *. lia. Qed.

Definition group_for_vlan (vlan_id : Z) : result Z :=
  _ <- validate_vlan vlan_id false ;;
  Ok (group_for_vlan_loop 0 vlan_id).

Definition is_valid_vlan_trunk_string (vlan_trunk_string : Py.str) : bool :=
  if re_match VLAN_TRUNK_STRING_REGEX vlan_trunk_string then true else false.

Definition reverse_bits (input_value bit_width : Z) : result Z :=
  let bit_string := Py.lstrip (Py.lit "0b") (Py.bin input_value) in
  let padded_string := Py.zfill bit_width bit_string in
  let reversed_bit_string := rev padded_string in
  Py.int reversed_bit_string 2.

Definition vlan_bit (vlan_id : Z) : result Z :=
  _ <- validate_vlan vlan_id false ;;
  group <- group_for_vlan vlan_id ;;
  Py.lshift 1 (vlan_id - (group * VLAN_GROUP_SIZE) - 1).

Definition vlan_in_group (vlan_id group : Z) : bool :=
  let result := vlan_id - (VLAN_GROUP_SIZE * group) in
  (result >=? 0) && (result <=? VLAN_GROUP_SIZE).

Definition bit_to_vlan (bit_value group : Z) : result Z :=
  if bit_value =? 0 then Raise ValueError
  else if bit_value <? 0 then Raise ValueError
  else
    let bin_string := Py.lstrip (Py.lit "0b") (Py.bin bit_value) in
    if Py.count "1"%char bin_string >? 1 then Raise ValueError
    else
      let position := Py.len bin_string in
      let vlan_id := position + (VLAN_GROUP_SIZE * group) in
      Ok vlan_id.

(** One turn of the [for] loop of [bits_to_vlans]. *)
Definition bits_to_vlans_step (bit_values group : Z)
    (vlan_list : list Z) (bit_value : Z) : result (list Z) :=
  one <- Py.lshift 1 bit_value ;;
  let check_value := Z.land one bit_values in
  if check_value =? 0 then Ok vlan_list
  else
    v <- bit_to_vlan check_value group ;;
    Ok (vlan_list ++ [v]).

Fixpoint for_each {A S : Type} (body : S -> A -> result S)
                  (items : list A) (s : S) : result S :=
  match items with
  | [] => Ok s
  | x :: rest => s' <- body s x ;; for_each body rest s'
  end.

Definition bits_to_vlans (bit_values group : Z) : result (list Z) :=
  for_each (bits_to_vlans_step bit_values group) (Py.range VLAN_GROUP_SIZE) [].

(** [GROUP_TO_OIDS] *)
Definition GROUP_TO_OIDS : Py.dict (list Py.str) :=
  [ (0, [Py.lit ".1.3.6.1.4.1.89.48.61.1.2."; Py.lit "vlanTrunkModeList1to1024"]);
    (1, [Py.lit ".1.3.6.1.4.1.89.48.61.1.3."; Py.lit "vlanTrunkModeList1025to2048"]);
    (2, [Py.lit ".1.3.6.1.4.1.89.48.61.1.4."; Py.lit "vlanTrunkModeList2049to3072"]);
    (3, [Py.lit ".1.3.6.1.4.1.89.48.61.1.5."; Py.lit "vlanTrunkModeList3073to4094"]) ].

(** The [for group, oid_list in ...items()] loop of [group_for_oid]; the
    [raise] after the loop is the empty case. *)
Fixpoint group_for_oid_loop (oid : Py.str)
    (items : list (Z * list Py.str)) : result Z :=
  match items with
  | [] => Raise ValueError
  | (group, oid_list) :: rest =>
      if existsb (fun item => Py.startswith oid item) oid_list then Ok group
      else group_for_oid_loop oid rest
  end.

Definition group_for_oid (oid : Py.str) : result Z :=
  group_for_oid_loop oid GROUP_TO_OIDS.


(** ** class VlanTrunkModeList *)

Module VlanTrunkModeList.

Record t : Type := mk { _group : Z; _value : Z }.

Definition __init__ (group : Z) : t := mk group 0.

Definition add_vlan (self : t) (vlan_id : Z) : result t :=
  if vlan_in_group vlan_id (_group self) then
    b <- vlan_bit vlan_id ;;
    Ok (mk (_group self) (Z.lor (_value self) b))
  else Raise ValueError.

Definition add_vlan_trunk_string (self : t) (vlan_string : Py.str)
    : result t :=
  if is_valid_vlan_trunk_string vlan_string then
    let without_whitespace := Py.join [] (Py.split vlan_string) in
    int_value <- Py.int without_whitespace 16 ;;
    reversed_int_value <- reverse_bits int_value VLAN_GROUP_SIZE ;;
    Ok (mk (_group self) (Z.lor (_value self) reversed_int_value))
  else Raise ValueError.

Definition get_vlan_trunk_string (self : t) : result Py.str :=
  r <- reverse_bits (_value self) VLAN_GROUP_SIZE ;;
  byte_values <- Py.to_bytes r BYTES_PER_GROUP ;;
  let hex_string := Py.upper (Py.hex byte_values) in
  let hex_list :=
    map (fun ab : ascii * ascii => [fst ab] ++ [snd ab])
        (combine (Py.stride2 hex_string) (Py.stride2_from1 hex_string)) in
  Ok (Py.join [space] hex_list).

Definition group (self : t) : Z := _group self.

Definition has_vlan (self : t) (vlan_id : Z) : result bool :=
  b <- vlan_bit vlan_id ;;
  Ok (negb (Z.land b (_value self) =? 0)).

Definition vlans (self : t) : result (list Z) :=
  bits_to_vlans (_value self) (_group self).

Definition remove_vlan (self : t) (vlan_id : Z) : result t :=
  if vlan_in_group vlan_id (_group self) then
    b <- vlan_bit vlan_id ;;
    Ok (mk (_group self) (Z.land (_value self) (Z.lnot b)))
  else Ok self.

Definition value (self : t) : Z := _value self.

End VlanTrunkModeList.

Import VlanTrunkModeList.

(** ** class SnmpVlanTrunk

    [_trunk_mode_lists] holds one [VlanTrunkModeList] object per group.
    A method that looks an object up and mutates it is modelled by
    looking the value up together with its key and storing the new value
    under that key; no object is held under two keys. *)

Module SnmpVlanTrunk.

Record t : Type := mk { _trunk_mode_lists : Py.dict VlanTrunkModeList.t }.

Definition __init__ : t :=
  mk (fold_left
        (fun d group_id =>
           Py.dict_set d group_id (VlanTrunkModeList.__init__ group_id))
        (Py.range VLAN_GROUP_COUNT) []).

Definition _get_group_instance (self : t) (group : Z)
    : result (Z * VlanTrunkModeList.t) :=
  match Py.dict_get (_trunk_mode_lists self) group with
  | Some instance => Ok (group, instance)
  | None => Raise ValueError
  end.

Definition _get_group_instance_from_vlan (self : t) (vlan_id : Z)
    : result (Z * VlanTrunkModeList.t) :=
  group <- group_for_vlan vlan_id ;;
  _get_group_instance self group.

(** The trunk once the object found under [key] has become [instance]. *)
Definition mutated (self : t) (key : Z) (instance : VlanTrunkModeList.t) : t :=
  mk (Py.dict_set (_trunk_mode_lists self) key instance).

Definition add_vlan (self : t) (vlan_id : Z) : result t :=
  found <- _get_group_instance_from_vlan self vlan_id ;;
  instance <- VlanTrunkModeList.add_vlan (snd found) vlan_id ;;
  Ok (mutated self (fst found) instance).

Definition add_vlan_trunk_string (self : t) (vlan_string : Py.str)
    (group : Z) : result t :=
  found <- _get_group_instance self group ;;
  instance <- VlanTrunkModeList.add_vlan_trunk_string (snd found) vlan_string ;;
  Ok (mutated self (fst found) instance).

Definition get_vlan_trunk_string (self : t) (group : Z) : result Py.str :=
  found <- _get_group_instance self group ;;
  VlanTrunkModeList.get_vlan_trunk_string (snd found).

Definition has_vlan (self : t) (vlan_id : Z) : result bool :=
  found <- _get_group_instance_from_vlan self vlan_id ;;
  VlanTrunkModeList.has_vlan (snd found) vlan_id.

Definition remove_vlan (self : t) (vlan_id : Z) : result t :=
  found <- _get_group_instance_from_vlan self vlan_id ;;
  instance <- VlanTrunkModeList.remove_vlan (snd found) vlan_id ;;
  Ok (mutated self (fst found) instance).

Definition vlan_trunk_strings (self : t) : result (Py.dict Py.str) :=
  for_each
    (fun vlan_lists (item : Z * VlanTrunkModeList.t) =>
       s <- VlanTrunkModeList.get_vlan_trunk_string (snd item) ;;
       Ok (Py.dict_set vlan_lists (fst item) s))
    (_trunk_mode_lists self) [].

Definition vlans (self : t) : result (Py.dict (list Z)) :=
  for_each
    (fun vlan_lists (item : Z * VlanTrunkModeList.t) =>
       l <- VlanTrunkModeList.vlans (snd item) ;;
       Ok (Py.dict_set vlan_lists (fst item) l))
    (_trunk_mode_lists self) [].

End SnmpVlanTrunk.

(** ** Notions used to state the properties *)

(** *** Digit strings *)

(** The value [int(s, base)] gives a run of digits. *)
Definition digit_or0 (c : ascii) : Z :=
  match Py.digit_value c with Some d => d | None => 0 end.

Definition str_value (base : Z) (s : Py.str) : Z :=
  fold_left (fun a c => base * a + digit_or0 c) s 0.

Definition valid_digit (base : Z) (c : ascii) : bool :=
  match Py.digit_value c with Some d => d <? base | None => false end.

Definition digits_of (base : Z) (s : Py.str) : Prop :=
  Forall (fun c => valid_digit base c = true) s.

(** The first two locals of [reverse_bits]: the text [bin(x)] leaves once
    its [0b] mark is stripped, and that text filled with zeros. *)
Definition bit_string (x : Z) : Py.str := Py.lstrip (Py.lit "0b") (Py.bin x).

Definition padded_string (input_value bit_width : Z) : Py.str :=
  Py.zfill bit_width (bit_string input_value).

(** *** The wire grammar *)

(** One byte token of the wire format: two upper-case hex digits. *)
Definition token (t : Py.str) : Prop :=
  exists a b, t = [a; b] /\ upper_hex a = true /\ upper_hex b = true.

(** The grammar in the words of the specification: 128 tokens joined by
    single spaces, nothing before and nothing after. *)
Definition wire_grammar (s : Py.str) : Prop :=
  exists tokens, List.length tokens = 128%nat /\ Forall token tokens /\
                 s = Py.join [space] tokens.

Definition newline : ascii := "010"%char.

(** The repeated group of the pattern: a space and two hex digits. *)
Definition tail_token : regex :=
  Cat (Class (Py.chr_eqb space)) (Rep 2 (Class upper_hex)).

Definition not_space (c : ascii) : bool := negb (Py.isspace c).

(** 128 tokens [00]. *)
Definition zero_string : Py.str := Py.join [space] (repeat (Py.lit "00") 128).

(** The test string of the module's self-test (line 316): [80] followed
    by 127 times a space and [00]. *)
Definition test_string : Py.str :=
  Py.lit "80" ++ List.concat (repeat (Py.lit " 00") (Z.to_nat (BYTES_PER_GROUP - 1))).

(** *** Masks *)

(** A mask that occupies no more than [VLAN_GROUP_SIZE] bits. *)
Definition fits (m : Z) : Prop := 0 <= m < 2 ^ VLAN_GROUP_SIZE.

(** Lines 148-150 of [add_vlan_trunk_string]: the mask an accepted string
    stands for. *)
Definition decode_trunk_string (vlan_string : Py.str) : result Z :=
  int_value <- Py.int (Py.join [] (Py.split vlan_string)) 16 ;;
  reverse_bits int_value VLAN_GROUP_SIZE.

(** The VLAN id [bit_to_vlan] gives bit number [bit_index]. *)
Definition vlan_at (group bit_index : Z) : Z :=
  bit_index + 1 + VLAN_GROUP_SIZE * group.

(** The token [get_vlan_trunk_string] writes for one byte. *)
Definition byte_token (x : Z) : Py.str :=
  [Py.upper_char (Py.hex_digit (x / 16)); Py.upper_char (Py.hex_digit (x mod 16))].

Definition is_byte (x : Z) : Prop := 0 <= x < 256.

(** Big-endian value of a list of bytes. *)
Definition be_value (bs : list Z) : Z := fold_left (fun a x => 256 * a + x) bs 0.

(** *** Sequences of calls on one store *)

Inductive operation : Type :=
| AddVlan (vlan_id : Z)
| AddVlanTrunkString (vlan_string : Py.str)
| RemoveVlan (vlan_id : Z).

Definition call (self : t) (op : operation) : result t :=
  match op with
  | AddVlan v => add_vlan self v
  | AddVlanTrunkString s => add_vlan_trunk_string self s
  | RemoveVlan v => remove_vlan self v
  end.

(** The store after a call: the new one when the call returns, the old
    one when it raises (every method assigns [_value] last). *)
Definition after (self : t) (op : operation) : t :=
  match call self op with
  | Ok self' => self'
  | Raise _ => self
  end.

(** *** Sequences of calls on an SnmpVlanTrunk *)

(** A trunk that holds the four stores, each with its own group id and a
    mask that fits. *)
Definition trunk_of (m0 m1 m2 m3 : Z) : SnmpVlanTrunk.t :=
  SnmpVlanTrunk.mk [(0, mk 0 m0); (1, mk 1 m1); (2, mk 2 m2); (3, mk 3 m3)].

Definition well_formed (self : SnmpVlanTrunk.t) : Prop :=
  exists m0 m1 m2 m3,
    self = trunk_of m0 m1 m2 m3 /\ fits m0 /\ fits m1 /\ fits m2 /\ fits m3.

Inductive trunk_operation : Type :=
| TrunkAddVlan (vlan_id : Z)
| TrunkAddVlanTrunkString (vlan_string : Py.str) (group : Z)
| TrunkRemoveVlan (vlan_id : Z).

Definition trunk_call (self : SnmpVlanTrunk.t) (op : trunk_operation)
    : result SnmpVlanTrunk.t :=
  match op with
  | TrunkAddVlan v => SnmpVlanTrunk.add_vlan self v
  | TrunkAddVlanTrunkString s g => SnmpVlanTrunk.add_vlan_trunk_string self s g
  | TrunkRemoveVlan v => SnmpVlanTrunk.remove_vlan self v
  end.

(** The trunk after a call, returning or raising. *)
Definition trunk_after (self : SnmpVlanTrunk.t) (op : trunk_operation)
    : SnmpVlanTrunk.t :=
  match trunk_call self op with
  | Ok self' => self'
  | Raise _ => self
  end.

(** The trunk whose store of group [g] has mask [masks g], and the masks
    after one store has changed. *)
Definition trunk_with (masks : Z -> Z) : SnmpVlanTrunk.t :=
  trunk_of (masks 0) (masks 1) (masks 2) (masks 3).

Definition set_mask (masks : Z -> Z) (group m : Z) : Z -> Z :=
  fun g => if g =? group then m else masks g.

(** The trunk reached from a new one by a sequence of calls. *)
Definition trunk_after_calls (ops : list trunk_operation) : SnmpVlanTrunk.t :=
  fold_left trunk_after ops SnmpVlanTrunk.__init__.

(** Whether an id lies in the range [group*1024 + 1 .. group*1024 + 1024]. *)
Definition in_group_range (group v : Z) : bool :=
  (VLAN_GROUP_SIZE * group <? v) && (v <=? VLAN_GROUP_SIZE * (group + 1)).

(** An item of [GROUP_TO_OIDS] for a group. *)
Definition oid_of_group (group : Z) (item : Py.str) : Prop :=
  exists oid_list, In (group, oid_list) GROUP_TO_OIDS /\ In item oid_list.

(** ** The builtins on small inputs *)

Example bin_examples :
  Py.bin 5 = Py.lit "0b101" /\ Py.bin 0 = Py.lit "0b0" /\
  Py.bin (-5) = Py.lit "-0b101" /\
  Py.lstrip (Py.lit "0b") (Py.bin 0) = [] /\
  Py.lstrip (Py.lit "0b") (Py.bin 8) = Py.lit "1000".
Proof. repeat split. Qed.

Example zfill_examples :
  Py.zfill 5 (Py.lit "101") = Py.lit "00101" /\
  Py.zfill 2 (Py.lit "101") = Py.lit "101" /\
  Py.zfill 6 (Py.lit "-0b1") = Py.lit "-000b1".
Proof. repeat split. Qed.

Example split_examples :
  Py.split (Py.lit " 0A  FF 1 ") = [Py.lit "0A"; Py.lit "FF"; Py.lit "1"] /\
  Py.join [space] [Py.lit "0A"; Py.lit "FF"] = Py.lit "0A FF" /\
  Py.split (Py.lit "0A" ++ [newline]) = [Py.lit "0A"].
Proof. repeat split. Qed.

Example reverse_bits_examples :
  reverse_bits 1 8 = Ok 128 /\ reverse_bits 6 4 = Ok 6 /\
  reverse_bits 0 8 = Ok 0 /\ reverse_bits 256 8 = Ok 1 /\
  reverse_bits (-1) 8 = Raise ValueError.
Proof. repeat split. Qed.

Example to_bytes_examples :
  Py.to_bytes 258 2 = Ok [1; 2] /\ Py.to_bytes 65536 2 = Raise OverflowError /\
  Py.upper (Py.hex [171; 5]) = Py.lit "AB05".
Proof. repeat split. Qed.

(** ** Group partitioning *)

Lemma group_for_vlan_loop_done (group test_value : Z) :
  test_value <= VLAN_GROUP_SIZE ->
  group_for_vlan_loop group test_value = group.
Proof.
  intros H. rewrite group_for_vlan_loop_equation_1.
  destruct (Z_gt_le_dec test_value VLAN_GROUP_SIZE); simpl; [lia | reflexivity].
Qed.

Lemma group_for_vlan_loop_step (group test_value : Z) :
  test_value > VLAN_GROUP_SIZE ->
  group_for_vlan_loop group test_value =
  group_for_vlan_loop (group + 1) (test_value - VLAN_GROUP_SIZE).
Proof.
  intros H. rewrite group_for_vlan_loop_equation_1.
  destruct (Z_gt_le_dec test_value VLAN_GROUP_SIZE); simpl; [reflexivity | lia].
Qed.

(** The loop returns the lowest group whose upper bound reaches the
    value. *)
Lemma group_for_vlan_loop_spec (n : nat) :
  forall group test_value,
    0 < test_value <= VLAN_GROUP_SIZE * (Z.of_nat n + 1) ->
    exists k, group_for_vlan_loop group test_value = group + k /\
              0 <= k <= Z.of_nat n /\
              VLAN_GROUP_SIZE * k < test_value <= VLAN_GROUP_SIZE * (k + 1).
Proof.
  induction n as [|n IH]; intros group test_value H.
  - exists 0. rewrite group_for_vlan_loop_done by lia. lia.
  - destruct (Z_gt_le_dec test_value VLAN_GROUP_SIZE) as [Hgt|Hle].
    + rewrite group_for_vlan_loop_step by assumption.
      destruct (IH (group + 1) (test_value - VLAN_GROUP_SIZE)) as (k & E & Hk & Hr);
        [unfold VLAN_GROUP_SIZE in *; lia|].
      exists (k + 1). rewrite E. unfold VLAN_GROUP_SIZE in *. lia.
    + exists 0. rewrite group_for_vlan_loop_done by lia.
      unfold VLAN_GROUP_SIZE in *. lia.
Qed.

Lemma validate_vlan_ok (v : Z) (safe : bool) :
  MIN_VLAN <= v <= MAX_VLAN -> validate_vlan v safe = Ok true.
Proof.
  intros H. unfold validate_vlan.
  replace (v >=? MIN_VLAN) with true by (symmetry; apply Z.geb_le; lia).
  replace (v <=? MAX_VLAN) with true by (symmetry; apply Z.leb_le; lia).
  reflexivity.
Qed.

Lemma group_for_vlan_spec (v : Z) :
  MIN_VLAN <= v <= MAX_VLAN ->
  exists g, group_for_vlan v = Ok g /\ 0 <= g <= 3 /\
            VLAN_GROUP_SIZE * g < v <= VLAN_GROUP_SIZE * (g + 1).
Proof.
  intros H. unfold group_for_vlan. rewrite validate_vlan_ok by assumption.
  unfold bind. destruct (group_for_vlan_loop_spec 3 0 v) as (k & E & Hk & Hr).
  - unfold MIN_VLAN, MAX_VLAN, VLAN_GROUP_SIZE in *. lia.
  - exists k. rewrite E, Z.add_0_l. repeat split; lia.
Qed.

Lemma group_for_vlan_inv (v g : Z) :
  group_for_vlan v = Ok g ->
  MIN_VLAN <= v <= MAX_VLAN /\ 0 <= g <= 3 /\
  VLAN_GROUP_SIZE * g < v <= VLAN_GROUP_SIZE * (g + 1).
Proof.
  intros E.
  assert (Hv : MIN_VLAN <= v <= MAX_VLAN).
  { unfold group_for_vlan, validate_vlan in E.
    destruct (v >=? MIN_VLAN) eqn:E1; destruct (v <=? MAX_VLAN) eqn:E2;
      simpl in E; try discriminate.
    apply Z.geb_le in E1. apply Z.leb_le in E2. lia. }
  split; [assumption|].
  destruct (group_for_vlan_spec v Hv) as (g' & E' & H1 & H2).
  rewrite E in E'. injection E' as ->. auto.
Qed.

(** C3: for every VLAN id from 1 to 4094, [group_for_vlan] returns a group
    among 0, 1, 2, 3 and does not raise, and [vlan_in_group] accepts the
    id for that group: the id minus 1024 times the group lies in
    [0, 1024]. *)
Theorem group_for_vlan_in_range_and_member (v : Z) :
  1 <= v <= 4094 ->
  exists g, group_for_vlan v = Ok g /\ In g [0; 1; 2; 3] /\
            vlan_in_group v g = true /\ 0 <= v - g * 1024 <= 1024.
Proof.
  intros H. destruct (group_for_vlan_spec v H) as (g & E & Hg & Hr).
  exists g. split; [exact E|].
  unfold VLAN_GROUP_SIZE in Hr.
  split; [simpl; lia|]. split; [|lia].
  unfold vlan_in_group, VLAN_GROUP_SIZE.
  apply andb_true_iff. split; [apply Z.geb_le | apply Z.leb_le]; lia.
Qed.

Lemma group_for_vlan_in_range_and_member_witness :
  exists g, group_for_vlan 1024 = Ok g /\ In g [0; 1; 2; 3] /\
            vlan_in_group 1024 g = true /\ 0 <= 1024 - g * 1024 <= 1024.
Proof. apply (group_for_vlan_in_range_and_member 1024). lia. Defined.

(** ** Binary text of a number *)

Lemma pos_digits_acc (p : positive) :
  forall acc, Py.pos_digits p acc = Py.pos_digits p [] ++ acc.
Proof.
  induction p as [q IH|q IH|]; intros acc; simpl.
  - rewrite IH, (IH ["1"%char]), <- app_assoc. reflexivity.
  - rewrite IH, (IH ["0"%char]), <- app_assoc. reflexivity.
  - reflexivity.
Qed.

Lemma pos_digits_head (p : positive) :
  forall acc, exists t, Py.pos_digits p acc = "1"%char :: t.
Proof.
  induction p as [q IH|q IH|]; intros acc; simpl; eauto.
Qed.

Lemma bit_string_0 : bit_string 0 = [].
Proof. reflexivity. Qed.

Lemma bit_string_pos (p : positive) :
  bit_string (Zpos p) = Py.pos_digits p [].
Proof.
  unfold bit_string, Py.bin.
  destruct (pos_digits_head p []) as (t & E). rewrite E. reflexivity.
Qed.

Lemma bit_string_double (x : Z) :
  0 < x -> bit_string (2 * x) = bit_string x ++ ["0"%char].
Proof.
  destruct x as [|p|p]; try lia. intros _.
  change (2 * Zpos p) with (Zpos (xO p)).
  rewrite !bit_string_pos. simpl. apply pos_digits_acc.
Qed.

Lemma bit_string_double_1 (x : Z) :
  0 <= x -> bit_string (2 * x + 1) = bit_string x ++ ["1"%char].
Proof.
  destruct x as [|p|p]; try lia; intros _.
  - reflexivity.
  - change (2 * Zpos p + 1) with (Zpos (xI p)).
    rewrite !bit_string_pos. simpl. apply pos_digits_acc.
Qed.

Lemma bit_string_pow2 (i : nat) :
  bit_string (2 ^ Z.of_nat i) = "1"%char :: repeat "0"%char i.
Proof.
  induction i as [|i IH].
  - reflexivity.
  - rewrite Nat2Z.inj_succ, Z.pow_succ_r by lia.
    rewrite bit_string_double by (apply Z.pow_pos_nonneg; lia).
    rewrite IH. simpl. f_equal.
    change ("0"%char :: repeat "0"%char i) with (repeat "0"%char (S i)).
    rewrite <- repeat_cons. reflexivity.
Qed.

Lemma filter_repeat_false {A} (f : A -> bool) (a : A) (n : nat) :
  f a = false -> filter f (repeat a n) = [].
Proof.
  intros H. induction n as [|n IH]; simpl; [reflexivity|].
  rewrite H. exact IH.
Qed.

(** An integer with the single bit [i] set names the VLAN at position
    [i + 1] of the group. *)
Lemma bit_to_vlan_pow2 (i group : Z) :
  0 <= i ->
  bit_to_vlan (2 ^ i) group = Ok (i + 1 + VLAN_GROUP_SIZE * group).
Proof.
  intros Hi. unfold bit_to_vlan.
  assert (Hp : 0 < 2 ^ i) by (apply Z.pow_pos_nonneg; lia).
  replace (2 ^ i =? 0) with false by (symmetry; apply Z.eqb_neq; lia).
  replace (2 ^ i <? 0) with false by (symmetry; apply Z.ltb_ge; lia).
  fold (bit_string (2 ^ i)).
  rewrite <- (Z2Nat.id i) by assumption. rewrite bit_string_pow2.
  unfold Py.count, Py.len. simpl filter.
  rewrite filter_repeat_false by reflexivity.
  change (Z.of_nat (List.length ["1"%char]) >? 1) with false. cbv iota.
  rewrite length_cons, repeat_length. f_equal. lia.
Qed.

Lemma vlan_bit_spec (v : Z) :
  MIN_VLAN <= v <= MAX_VLAN ->
  exists g, group_for_vlan v = Ok g /\ 0 <= g <= 3 /\
            0 <= v - g * VLAN_GROUP_SIZE - 1 < VLAN_GROUP_SIZE /\
            vlan_bit v = Ok (2 ^ (v - g * VLAN_GROUP_SIZE - 1)).
Proof.
  intros H. destruct (group_for_vlan_spec v H) as (g & E & Hg & Hr).
  exists g. split; [exact E|]. split; [exact Hg|].
  split; [unfold VLAN_GROUP_SIZE in *; lia|].
  unfold vlan_bit. rewrite validate_vlan_ok, E by assumption.
  unfold bind, Py.lshift.
  replace (v - g * VLAN_GROUP_SIZE - 1 <? 0) with false
    by (symmetry; apply Z.ltb_ge; unfold VLAN_GROUP_SIZE in *; lia).
  rewrite Z.shiftl_1_l. reflexivity.
Qed.

(** C4: for every VLAN id [v] from 1 to 4094, with [g] its group, the bit
    of [v] is bit number [v - g*1024 - 1], and mapping that bit back with
    [bit_to_vlan] in group [g] returns [v]; on indices,
    [(v - g*1024 - 1) + 1 + g*1024 = v]. *)
Theorem bit_to_vlan_vlan_bit_inverse (v : Z) :
  1 <= v <= 4094 ->
  exists g b, group_for_vlan v = Ok g /\ vlan_bit v = Ok b /\
              b = Z.shiftl 1 (v - g * 1024 - 1) /\
              (v - g * 1024 - 1) + 1 + g * 1024 = v /\
              bit_to_vlan b g = Ok v.
Proof.
  intros H. destruct (vlan_bit_spec v H) as (g & E & Hg & Hi & Eb).
  exists g, (2 ^ (v - g * VLAN_GROUP_SIZE - 1)).
  split; [exact E|]. split; [exact Eb|].
  split; [rewrite Z.shiftl_1_l; reflexivity|]. split; [lia|].
  rewrite bit_to_vlan_pow2 by lia. f_equal. lia.
Qed.

Lemma bit_to_vlan_vlan_bit_inverse_witness :
  exists g b, group_for_vlan 2048 = Ok g /\ vlan_bit 2048 = Ok b /\
              b = Z.shiftl 1 (2048 - g * 1024 - 1) /\
              (2048 - g * 1024 - 1) + 1 + g * 1024 = 2048 /\
              bit_to_vlan b g = Ok 2048.
Proof. apply (bit_to_vlan_vlan_bit_inverse 2048). lia. Defined.

(** ** Digit strings and their values *)

Lemma valid_digit_2 (c : ascii) :
  valid_digit 2 c = true -> c = "0"%char \/ c = "1"%char.
Proof.
  destruct c as [[] [] [] [] [] [] [] []]; vm_compute; intros H;
    try discriminate H; auto.
Qed.

Lemma digit_or0_nonneg (base : Z) (c : ascii) :
  valid_digit base c = true -> 0 <= digit_or0 c < base.
Proof.
  unfold valid_digit, digit_or0.
  destruct (Py.digit_value c) as [d|] eqn:E; [|discriminate].
  intros H. apply Z.ltb_lt in H. split; [|exact H].
  unfold Py.digit_value in E.
  repeat match type of E with
         | (if ?b then _ else _) = _ => destruct b eqn:?
         end; try discriminate; injection E as <-;
    repeat match goal with
           | H : (_ && _)%bool = true |- _ => apply andb_true_iff in H; destruct H
           | H : (_ <=? _) = true |- _ => apply Z.leb_le in H
           end; lia.
Qed.

Lemma str_value_app (base : Z) (s t : Py.str) :
  str_value base (s ++ t) =
  fold_left (fun a c => base * a + digit_or0 c) t (str_value base s).
Proof. unfold str_value. apply fold_left_app. Qed.

Lemma str_value_snoc (base : Z) (s : Py.str) (c : ascii) :
  str_value base (s ++ [c]) = base * str_value base s + digit_or0 c.
Proof. rewrite str_value_app. reflexivity. Qed.

Lemma str_value_zeros (base : Z) (n : nat) (s : Py.str) :
  str_value base (repeat "0"%char n ++ s) = str_value base s.
Proof.
  rewrite str_value_app. unfold str_value at 2. f_equal.
  induction n as [|n IH]; [reflexivity|].
  unfold str_value in *. simpl repeat. simpl fold_left.
  change (digit_or0 "0") with 0. rewrite Z.mul_0_r. exact IH.
Qed.

Lemma str_value_bounds (base : Z) (s : Py.str) :
  0 < base -> digits_of base s ->
  0 <= str_value base s < base ^ Py.len s.
Proof.
  intros Hb. induction s as [|c s IH] using rev_ind; intros H.
  - unfold str_value, Py.len. simpl. lia.
  - apply Forall_app in H. destruct H as [Hs Hc].
    apply Forall_inv in Hc. apply (digit_or0_nonneg base) in Hc.
    specialize (IH Hs). rewrite str_value_snoc.
    unfold Py.len in *. rewrite length_app, Nat2Z.inj_add.
    simpl List.length. rewrite Z.pow_add_r, Z.pow_1_r by lia.
    nia.
Qed.

Lemma int_digits_ok (base : Z) (s : Py.str) :
  digits_of base s ->
  forall acc, Py.int_digits base acc s =
              Ok (fold_left (fun a c => base * a + digit_or0 c) s acc).
Proof.
  induction 1 as [|c s Hc _ IH]; intros acc; simpl; [reflexivity|].
  unfold valid_digit in Hc. unfold digit_or0 at 2.
  destruct (Py.digit_value c) as [d|]; [|discriminate].
  rewrite Hc. apply IH.
Qed.

Lemma int_ok (base : Z) (s : Py.str) :
  s <> [] -> digits_of base s -> Py.int s base = Ok (str_value base s).
Proof.
  intros Hne H. unfold Py.int. destruct s as [|c s]; [congruence|].
  apply int_digits_ok. exact H.
Qed.

Lemma str_value_pos_digits (p : positive) :
  str_value 2 (Py.pos_digits p []) = Zpos p.
Proof.
  induction p as [q IH|q IH|]; simpl; [| |reflexivity];
    rewrite pos_digits_acc, str_value_snoc, IH; reflexivity.
Qed.

Lemma digits_of_pos_digits (p : positive) :
  digits_of 2 (Py.pos_digits p []).
Proof.
  induction p as [q IH|q IH|]; simpl.
  - rewrite pos_digits_acc. apply Forall_app. split; [exact IH|].
    constructor; [reflexivity | constructor].
  - rewrite pos_digits_acc. apply Forall_app. split; [exact IH|].
    constructor; [reflexivity | constructor].
  - constructor; [reflexivity | constructor].
Qed.

Lemma pos_digits_length (p : positive) :
  2 ^ Py.len (Py.pos_digits p []) <= 2 * Zpos p.
Proof.
  unfold Py.len. induction p as [q IH|q IH|]; simpl Py.pos_digits.
  - rewrite pos_digits_acc, length_app, Nat2Z.inj_add. simpl List.length.
    rewrite Z.pow_add_r, Z.pow_1_r by lia. lia.
  - rewrite pos_digits_acc, length_app, Nat2Z.inj_add. simpl List.length.
    rewrite Z.pow_add_r, Z.pow_1_r by lia. lia.
  - simpl. lia.
Qed.

Lemma str_value_bit_string (x : Z) : 0 <= x -> str_value 2 (bit_string x) = x.
Proof.
  destruct x as [|p|p]; try lia; intros _; [reflexivity|].
  rewrite bit_string_pos. apply str_value_pos_digits.
Qed.

Lemma digits_of_bit_string (x : Z) : 0 <= x -> digits_of 2 (bit_string x).
Proof.
  destruct x as [|p|p]; try lia; intros _; [constructor|].
  rewrite bit_string_pos. apply digits_of_pos_digits.
Qed.

Lemma bit_string_length (x w : Z) :
  0 <= x < 2 ^ w -> 0 <= w -> Py.len (bit_string x) <= w.
Proof.
  destruct x as [|p|p]; try lia; intros H Hw.
  - rewrite bit_string_0. unfold Py.len. simpl. lia.
  - rewrite bit_string_pos. pose proof (pos_digits_length p) as Hl.
    assert (Hlt : 2 ^ Py.len (Py.pos_digits p []) < 2 ^ (w + 1)).
    { rewrite (Z.pow_add_r 2 w 1), Z.pow_1_r by lia. lia. }
    apply Z.pow_lt_mono_r_iff in Hlt; lia.
Qed.

Lemma bit_string_head (x : Z) :
  0 <= x -> bit_string x = [] \/ exists t, bit_string x = "1"%char :: t.
Proof.
  destruct x as [|p|p]; try lia; intros _; [left; reflexivity|].
  right. rewrite bit_string_pos. apply pos_digits_head.
Qed.

Lemma bit_string_nonempty (x : Z) : 0 < x -> bit_string x <> [].
Proof.
  destruct x as [|p|p]; try lia; intros _.
  rewrite bit_string_pos. destruct (pos_digits_head p []) as (t & ->).
  discriminate.
Qed.

(** ** [lstrip] and [zfill] on binary text *)

Lemma lstrip_app (chars a b : Py.str) :
  Py.lstrip chars (a ++ b) =
  match Py.lstrip chars a with
  | [] => Py.lstrip chars b
  | l => l ++ b
  end.
Proof.
  induction a as [|c a IH]; simpl; [reflexivity|].
  destruct (Py.mem c chars); [exact IH | reflexivity].
Qed.

(** Binary text is its stripped form behind a run of zeros. *)
Lemma lstrip_zeros (s : Py.str) :
  digits_of 2 s ->
  exists k, s = repeat "0"%char k ++ Py.lstrip (Py.lit "0b") s /\
            (Py.lstrip (Py.lit "0b") s = [] \/
             exists t, Py.lstrip (Py.lit "0b") s = "1"%char :: t).
Proof.
  induction 1 as [|c s Hc _ IH].
  - exists 0%nat. split; [reflexivity | left; reflexivity].
  - destruct (valid_digit_2 c Hc) as [-> | ->].
    + destruct IH as (k & E & Hh). exists (S k).
      change (Py.lstrip (Py.lit "0b") ("0"%char :: s))
        with (Py.lstrip (Py.lit "0b") s).
      split; [simpl; f_equal; exact E | exact Hh].
    + exists 0%nat. split; [reflexivity | right; eexists; reflexivity].
Qed.

Lemma zfill_unsigned (w : Z) (s : Py.str) :
  s = [] \/ (exists t, s = "1"%char :: t) ->
  Py.zfill w s = repeat "0"%char (Z.to_nat (w - Py.len s)) ++ s.
Proof.
  intros H. unfold Py.zfill.
  destruct (w <=? Py.len s) eqn:E.
  - apply Z.leb_le in E. replace (Z.to_nat (w - Py.len s)) with 0%nat by lia.
    reflexivity.
  - destruct H as [-> | (t & ->)]; [rewrite app_nil_r|]; reflexivity.
Qed.

(** The text of a value read from binary text is that text without its
    leading zeros. *)
Lemma bit_string_str_value (s : Py.str) :
  digits_of 2 s -> bit_string (str_value 2 s) = Py.lstrip (Py.lit "0b") s.
Proof.
  induction s as [|c s IH] using rev_ind; intros H; [reflexivity|].
  apply Forall_app in H. destruct H as [Hs Hc]. apply Forall_inv in Hc.
  specialize (IH Hs).
  pose proof (str_value_bounds 2 s ltac:(lia) Hs) as [Hv _].
  rewrite str_value_snoc, lstrip_app, <- IH.
  destruct (valid_digit_2 c Hc) as [-> | ->].
  - change (digit_or0 "0") with 0. rewrite Z.add_0_r.
    destruct (Z.eq_dec (str_value 2 s) 0) as [E0 | Hne].
    + rewrite E0. reflexivity.
    + rewrite bit_string_double by lia.
      destruct (bit_string (str_value 2 s)) eqn:Eb; [|reflexivity].
      exfalso. apply (bit_string_nonempty (str_value 2 s)); [lia | exact Eb].
  - change (digit_or0 "1") with 1.
    rewrite bit_string_double_1 by lia.
    destruct (bit_string (str_value 2 s)); reflexivity.
Qed.

(** ** [reverse_bits] *)

Lemma padded_string_eq (x w : Z) :
  0 <= x ->
  padded_string x w =
  repeat "0"%char (Z.to_nat (w - Py.len (bit_string x))) ++ bit_string x.
Proof.
  intros Hx. apply zfill_unsigned. apply bit_string_head. exact Hx.
Qed.

Lemma digits_of_repeat_0 (base : Z) (n : nat) :
  0 < base -> digits_of base (repeat "0"%char n).
Proof.
  intros Hb. apply Forall_forall. intros c Hc. apply repeat_spec in Hc.
  subst c. unfold valid_digit. simpl. apply Z.ltb_lt. exact Hb.
Qed.

Lemma digits_of_padded_string (x w : Z) :
  0 <= x -> digits_of 2 (padded_string x w).
Proof.
  intros Hx. rewrite padded_string_eq by assumption.
  apply Forall_app. split;
    [apply digits_of_repeat_0; lia | apply digits_of_bit_string; exact Hx].
Qed.

Lemma padded_string_length (x w : Z) :
  0 <= x < 2 ^ w -> 0 <= w -> Py.len (padded_string x w) = w.
Proof.
  intros Hx Hw. pose proof (bit_string_length x w Hx Hw) as Hl.
  rewrite padded_string_eq by lia. unfold Py.len in *.
  rewrite length_app, repeat_length. lia.
Qed.

Lemma padded_string_value (x w : Z) :
  0 <= x -> str_value 2 (padded_string x w) = x.
Proof.
  intros Hx. rewrite padded_string_eq, str_value_zeros by assumption.
  apply str_value_bit_string. exact Hx.
Qed.

Lemma reverse_bits_eq (x w : Z) :
  0 <= x -> 0 < w ->
  reverse_bits x w = Ok (str_value 2 (rev (padded_string x w))).
Proof.
  intros Hx Hw. unfold reverse_bits. fold (bit_string x).
  fold (padded_string x w). apply int_ok.
  - intros E. apply (f_equal (@List.length ascii)) in E.
    rewrite length_rev, padded_string_eq, length_app, repeat_length in E
      by assumption.
    simpl in E. unfold Py.len in E. lia.
  - apply Forall_rev. apply digits_of_padded_string. exact Hx.
Qed.

Lemma reverse_bits_bounds (x w : Z) :
  0 <= x < 2 ^ w -> 0 < w ->
  exists y, reverse_bits x w = Ok y /\ 0 <= y < 2 ^ w.
Proof.
  intros Hx Hw. rewrite reverse_bits_eq by lia. eexists. split; [reflexivity|].
  pose proof (str_value_bounds 2 (rev (padded_string x w)) ltac:(lia)) as Hb.
  unfold Py.len in Hb. rewrite length_rev in Hb.
  fold (Py.len (padded_string x w)) in Hb.
  rewrite padded_string_length in Hb by lia.
  apply Hb. apply Forall_rev. apply digits_of_padded_string. lia.
Qed.

Lemma reverse_bits_involutive (x w : Z) :
  0 <= x < 2 ^ w -> 0 < w ->
  (y <- reverse_bits x w ;; reverse_bits y w) = Ok x.
Proof.
  intros Hx Hw. rewrite reverse_bits_eq by lia. unfold bind.
  set (s := padded_string x w).
  assert (Hd : digits_of 2 (rev s))
    by (apply Forall_rev, digits_of_padded_string; lia).
  assert (Hl : Py.len (rev s) = w).
  { unfold Py.len. rewrite length_rev. apply padded_string_length; lia. }
  pose proof (str_value_bounds 2 (rev s) ltac:(lia) Hd) as Hb.
  rewrite reverse_bits_eq by lia. f_equal.
  unfold padded_string at 1. rewrite bit_string_str_value by exact Hd.
  destruct (lstrip_zeros (rev s) Hd) as (k & E & Hh).
  rewrite zfill_unsigned by exact Hh.
  assert (Hk : Z.to_nat (w - Py.len (Py.lstrip (Py.lit "0b") (rev s))) = k).
  { apply (f_equal (@List.length ascii)) in E.
    rewrite length_app, repeat_length in E. unfold Py.len in *. lia. }
  rewrite Hk, <- E, rev_involutive. apply padded_string_value. lia.
Qed.

(** C5: whole-field bit reversal at width 1024 is its own inverse on every
    integer [x] with [0 <= x < 2^1024]. *)
Theorem reverse_bits_1024_involution (x : Z) :
  0 <= x < 2 ^ 1024 ->
  exists y, reverse_bits x 1024 = Ok y /\ reverse_bits y 1024 = Ok x.
Proof.
  intros Hx.
  destruct (reverse_bits_bounds x 1024 Hx ltac:(lia)) as (y & Ey & _).
  exists y. split; [exact Ey|].
  pose proof (reverse_bits_involutive x 1024 Hx ltac:(lia)) as H.
  rewrite Ey in H. exact H.
Qed.

Lemma reverse_bits_1024_involution_witness :
  exists y, reverse_bits 6 1024 = Ok y /\ reverse_bits y 1024 = Ok 6.
Proof.
  apply (reverse_bits_1024_involution 6).
  split; [discriminate | reflexivity].
Defined.

(** ** The octet-string grammar *)

Lemma rmatch_rep_succ (n : nat) (r : regex) pos s k :
  rmatch (Rep (S n) r) pos s k =
  rmatch r pos s (fun pos' s' => rmatch (Rep n r) pos' s' k).
Proof. reflexivity. Qed.

Lemma rmatch_two_hex pos s k :
  rmatch (Rep 2 (Class upper_hex)) pos s k = true <->
  exists a b t, s = a :: b :: t /\ upper_hex a = true /\ upper_hex b = true /\
                k (S (S pos)) t = true.
Proof.
  split.
  - destruct s as [|a [|b t]]; simpl; intros H; try discriminate.
    + rewrite andb_false_r in H. discriminate.
    + apply andb_true_iff in H. destruct H as [Ha H].
      apply andb_true_iff in H. destruct H as [Hb H].
      exists a, b, t. auto.
  - intros (a & b & t & -> & Ha & Hb & Hk). simpl. rewrite Ha, Hb. exact Hk.
Qed.

Lemma rmatch_tail_token_cons pos c s k :
  rmatch tail_token pos (c :: s) k =
  Py.chr_eqb space c && rmatch (Rep 2 (Class upper_hex)) (S pos) s k.
Proof. reflexivity. Qed.

Lemma rmatch_tail_token pos s k :
  rmatch tail_token pos s k = true <->
  exists t rest, token t /\ s = space :: t ++ rest /\
                 k (S (S (S pos))) rest = true.
Proof.
  split.
  - destruct s as [|c s]; [intros H; discriminate H|].
    rewrite rmatch_tail_token_cons. intros H.
    apply andb_true_iff in H. destruct H as [Hc H].
    apply Ascii.eqb_eq in Hc. subst c.
    apply rmatch_two_hex in H. destruct H as (a & b & t & -> & Ha & Hb & Hk).
    exists [a; b], t. split; [exists a, b; auto|]. split; [reflexivity | exact Hk].
  - intros (t & rest & (a & b & -> & Ha & Hb) & -> & Hk).
    rewrite rmatch_tail_token_cons. apply andb_true_iff.
    split; [apply Ascii.eqb_refl|].
    apply rmatch_two_hex. exists a, b, rest. auto.
Qed.

Lemma rmatch_tail_tokens (n : nat) :
  forall pos s k,
    rmatch (Rep n tail_token) pos s k = true <->
    exists toks rest, List.length toks = n /\ Forall token toks /\
                      s = List.concat (map (cons space) toks) ++ rest /\
                      k (3 * n + pos)%nat rest = true.
Proof.
  induction n as [|n IH]; intros pos s k.
  - split.
    + intros H. exists [], s. repeat split; auto.
    + intros (toks & rest & Hl & _ & -> & Hk).
      destruct toks; [exact Hk | discriminate].
  - rewrite rmatch_rep_succ, rmatch_tail_token. split.
    + intros (t & rest & Ht & -> & H). apply IH in H.
      destruct H as (toks & rest' & Hl & Hf & -> & Hk).
      exists (t :: toks), rest'. simpl. rewrite <- app_assoc.
      repeat split; auto.
      match goal with
      | |- k ?a _ = true =>
          replace a with (3 * n + S (S (S pos)))%nat by (simpl; lia)
      end.
      exact Hk.
    + intros (toks & rest & Hl & Hf & -> & Hk).
      destruct toks as [|t toks]; [discriminate|].
      inversion Hf as [|? ? Ht Hf']; subst. injection Hl as Hl.
      exists t, (List.concat (map (cons space) toks) ++ rest).
      split; [exact Ht|]. split; [simpl; rewrite <- app_assoc; reflexivity|].
      apply IH. exists toks, rest. repeat split; auto.
      match goal with
      | |- k ?a _ = true =>
          match type of Hk with
          | k ?b _ = true => replace a with b by lia
          end
      end.
      exact Hk.
Qed.

Lemma join_space_cons (t : Py.str) (toks : list Py.str) :
  Py.join [space] (t :: toks) = t ++ List.concat (map (cons space) toks).
Proof.
  revert t. induction toks as [|u toks IH]; intros t.
  - simpl. rewrite app_nil_r. reflexivity.
  - change (Py.join [space] (t :: u :: toks))
      with (t ++ [space] ++ Py.join [space] (u :: toks)).
    rewrite IH. reflexivity.
Qed.

(** What the compiled pattern accepts: the grammar, or the grammar
    followed by one newline. *)
Lemma is_valid_vlan_trunk_string_iff (s : Py.str) :
  is_valid_vlan_trunk_string s = true <->
  exists body, wire_grammar body /\ (s = body \/ s = body ++ [newline]).
Proof.
  unfold is_valid_vlan_trunk_string.
  replace (if re_match VLAN_TRUNK_STRING_REGEX s then true else false)
    with (re_match VLAN_TRUNK_STRING_REGEX s)
    by (destruct (re_match _ s); reflexivity).
  unfold re_match, VLAN_TRUNK_STRING_REGEX.
  change (Z.to_nat (BYTES_PER_GROUP - 1)) with 127%nat.
  fold tail_token.
  change (rmatch (Cat Bol (Cat (Rep 2 (Class upper_hex))
                             (Cat (Rep 127 tail_token) Eol))) 0 s
            (fun _ _ => true))
    with (rmatch (Rep 2 (Class upper_hex)) 0 s
            (fun pos' s' => rmatch (Rep 127 tail_token) pos' s'
               (fun pos'' s'' => rmatch Eol pos'' s'' (fun _ _ => true)))).
  rewrite rmatch_two_hex. split.
  - intros (a & b & t & -> & Ha & Hb & H).
    apply rmatch_tail_tokens in H.
    destruct H as (toks & rest & Hl & Hf & -> & Hk).
    exists (Py.join [space] ([a; b] :: toks)). split.
    + exists ([a; b] :: toks). split; [simpl; lia|].
      split; [|reflexivity]. constructor; [exists a, b; auto | exact Hf].
    + rewrite join_space_cons.
      destruct rest as [|c [|d rest]]; simpl in Hk; try discriminate.
      * left. rewrite app_nil_r. reflexivity.
      * right. rewrite andb_true_r in Hk. apply Ascii.eqb_eq in Hk. subst c.
        rewrite <- app_assoc. reflexivity.
  - intros (body & (tokens & Hl & Hf & ->) & Hs).
    destruct tokens as [|t toks]; [discriminate|].
    inversion Hf as [|? ? (a & b & -> & Ha & Hb) Hf']; subst.
    injection Hl as Hl. rewrite join_space_cons in Hs.
    exists a, b.
    destruct Hs as [-> | ->].
    + exists (List.concat (map (cons space) toks)).
      repeat split; auto. apply rmatch_tail_tokens.
      exists toks, []. rewrite app_nil_r. repeat split; auto.
    + exists (List.concat (map (cons space) toks) ++ [newline]).
      split; [rewrite <- app_assoc; reflexivity|].
      repeat split; auto. apply rmatch_tail_tokens.
      exists toks, [newline]. repeat split; auto.
Qed.

(** ** [split], [join] and the hex digits of an accepted string *)

Lemma join_nil (parts : list Py.str) : Py.join [] parts = List.concat parts.
Proof.
  induction parts as [|x [|y rest] IH]; simpl in *.
  - reflexivity.
  - rewrite app_nil_r. reflexivity.
  - rewrite IH. reflexivity.
Qed.

Lemma split_from_concat (s : Py.str) :
  forall cur, List.concat (Py.split_from cur s) = rev cur ++ filter not_space s.
Proof.
  induction s as [|c s IH]; intros cur; simpl.
  - destruct cur; simpl; rewrite ?app_nil_r; reflexivity.
  - unfold not_space at 1. destruct (Py.isspace c); simpl.
    + destruct cur; [apply IH | simpl; rewrite IH; reflexivity].
    + rewrite IH. simpl. rewrite <- app_assoc. reflexivity.
Qed.

(** [''.join(s.split())] removes the whitespace of [s]. *)
Lemma join_split (s : Py.str) :
  Py.join [] (Py.split s) = filter not_space s.
Proof. rewrite join_nil. apply (split_from_concat s []). Qed.

Lemma upper_hex_facts (c : ascii) :
  upper_hex c = true -> not_space c = true /\ valid_digit 16 c = true.
Proof.
  destruct c as [[] [] [] [] [] [] [] []]; vm_compute; intros H;
    try discriminate H; auto.
Qed.

Lemma filter_tokens (toks : list Py.str) :
  Forall token toks ->
  filter not_space (List.concat (map (cons space) toks)) = List.concat toks.
Proof.
  induction 1 as [|t toks (a & b & -> & Ha & Hb) _ IH]; [reflexivity|].
  simpl. change (not_space space) with false. cbv iota.
  destruct (upper_hex_facts a Ha) as [-> _].
  destruct (upper_hex_facts b Hb) as [-> _].
  rewrite IH. reflexivity.
Qed.

Lemma tokens_digits (toks : list Py.str) :
  Forall token toks ->
  digits_of 16 (List.concat toks) /\
  Py.len (List.concat toks) = 2 * Z.of_nat (List.length toks).
Proof.
  induction 1 as [|t toks (a & b & -> & Ha & Hb) _ [IH1 IH2]].
  - split; [constructor | reflexivity].
  - split.
    + simpl. constructor; [apply upper_hex_facts; exact Ha|].
      constructor; [apply upper_hex_facts; exact Hb | exact IH1].
    + unfold Py.len in *. simpl List.concat. simpl List.length. lia.
Qed.

(** The hex digits of a string of the grammar, in order. *)
Lemma wire_grammar_digits (body : Py.str) :
  wire_grammar body ->
  exists toks, List.length toks = 128%nat /\ Forall token toks /\
               body = Py.join [space] toks /\
               filter not_space body = List.concat toks /\
               filter not_space (body ++ [newline]) = List.concat toks.
Proof.
  intros (toks & Hl & Hf & ->). exists toks.
  split; [exact Hl|]. split; [exact Hf|]. split; [reflexivity|].
  destruct toks as [|t toks]; [discriminate|].
  inversion Hf as [|? ? (a & b & -> & Ha & Hb) Hf']; subst.
  rewrite join_space_cons, !filter_app.
  rewrite filter_tokens by exact Hf'.
  simpl. destruct (upper_hex_facts a Ha) as [-> _].
  destruct (upper_hex_facts b Hb) as [-> _].
  change (not_space newline) with false. cbv iota.
  rewrite ?app_nil_r. split; reflexivity.
Qed.

(** An accepted string always decodes: its text without whitespace is a
    run of 256 hex digits, so [int(_, 16)] returns a value below
    [2^1024]. *)
Lemma accepted_string_int (s : Py.str) :
  is_valid_vlan_trunk_string s = true ->
  exists n, Py.int (Py.join [] (Py.split s)) 16 = Ok n /\
            0 <= n < 2 ^ VLAN_GROUP_SIZE.
Proof.
  intros H. apply is_valid_vlan_trunk_string_iff in H.
  destruct H as (body & Hg & Hs).
  destruct (wire_grammar_digits body Hg) as (toks & Hl & Hf & _ & E1 & E2).
  assert (E : filter not_space s = List.concat toks)
    by (destruct Hs as [-> | ->]; assumption).
  destruct (tokens_digits toks Hf) as [Hd Hlen].
  rewrite join_split, E. exists (str_value 16 (List.concat toks)). split.
  - apply int_ok; [|exact Hd].
    intros E0. rewrite E0, Hl in Hlen. discriminate Hlen.
  - pose proof (str_value_bounds 16 (List.concat toks) ltac:(lia) Hd) as Hb.
    rewrite Hlen, Hl in Hb.
    replace (2 ^ VLAN_GROUP_SIZE) with (16 ^ (2 * Z.of_nat 128))
      by (vm_compute; reflexivity).
    exact Hb.
Qed.

(** ** Masks of 1024 bits *)

Lemma fits_iff (n a : Z) :
  0 <= n -> (0 <= a < 2 ^ n <-> 0 <= a /\ Z.shiftr a n = 0).
Proof.
  intros Hn. rewrite Z.shiftr_div_pow2 by assumption.
  assert (Hp : 0 < 2 ^ n) by (apply Z.pow_pos_nonneg; lia).
  split.
  - intros H. split; [lia | apply Z.div_small; exact H].
  - intros [Ha H]. apply Z.div_small_iff in H; lia.
Qed.

Lemma lor_fits (n a b : Z) :
  0 <= n -> 0 <= a < 2 ^ n -> 0 <= b < 2 ^ n -> 0 <= Z.lor a b < 2 ^ n.
Proof.
  intros Hn Ha Hb. apply fits_iff in Ha, Hb; try assumption.
  apply fits_iff; [assumption|]. split.
  - apply Z.lor_nonneg. lia.
  - rewrite Z.shiftr_lor. destruct Ha as [_ ->], Hb as [_ ->]. reflexivity.
Qed.

Lemma land_fits (n a c : Z) :
  0 <= n -> 0 <= a < 2 ^ n -> 0 <= Z.land a c < 2 ^ n.
Proof.
  intros Hn Ha. apply fits_iff in Ha; try assumption.
  apply fits_iff; [assumption|]. split.
  - apply Z.land_nonneg. lia.
  - rewrite Z.shiftr_land. destruct Ha as [_ ->]. reflexivity.
Qed.

Lemma fits_bits (m i : Z) :
  fits m -> Z.testbit m i = true -> 0 <= i < VLAN_GROUP_SIZE.
Proof.
  intros Hm Hi. unfold fits in Hm.
  destruct (Z_lt_le_dec i 0) as [Hneg|Hpos].
  - rewrite Z.testbit_neg_r in Hi by assumption. discriminate.
  - split; [assumption|].
    destruct (Z_lt_le_dec i VLAN_GROUP_SIZE) as [Hlt|Hge]; [assumption|].
    apply fits_iff in Hm; [|unfold VLAN_GROUP_SIZE; lia].
    destruct Hm as [_ Hs].
    replace i with ((i - VLAN_GROUP_SIZE) + VLAN_GROUP_SIZE) in Hi by lia.
    rewrite <- Z.shiftr_spec, Hs, Z.bits_0 in Hi by lia. discriminate.
Qed.

Lemma pow2_fits (k : Z) : 0 <= k < VLAN_GROUP_SIZE -> fits (2 ^ k).
Proof.
  intros Hk. split; [apply Z.pow_nonneg; lia|].
  apply Z.pow_lt_mono_r; lia.
Qed.

(** ** class VlanTrunkModeList: the operations one by one *)

Lemma decode_trunk_string_ok (s : Py.str) :
  is_valid_vlan_trunk_string s = true ->
  exists d, decode_trunk_string s = Ok d /\ fits d.
Proof.
  intros H. destruct (accepted_string_int s H) as (n & En & Hn).
  destruct (reverse_bits_bounds n VLAN_GROUP_SIZE Hn) as (d & Ed & Hd);
    [unfold VLAN_GROUP_SIZE; lia|].
  exists d. unfold decode_trunk_string. rewrite En. split; assumption.
Qed.

Lemma add_vlan_trunk_string_eq (self : t) (s : Py.str) (d : Z) :
  is_valid_vlan_trunk_string s = true ->
  decode_trunk_string s = Ok d ->
  add_vlan_trunk_string self s = Ok (mk (_group self) (Z.lor (_value self) d)).
Proof.
  intros H E. unfold add_vlan_trunk_string. rewrite H.
  unfold decode_trunk_string in E.
  destruct (Py.int (Py.join [] (Py.split s)) 16) as [n|e]; [|discriminate].
  unfold bind in *. rewrite E. reflexivity.
Qed.

Lemma add_vlan_inv (self self' : t) (v : Z) :
  add_vlan self v = Ok self' ->
  exists k, 0 <= k < VLAN_GROUP_SIZE /\
            self' = mk (_group self) (Z.lor (_value self) (2 ^ k)).
Proof.
  unfold add_vlan. destruct (vlan_in_group v (_group self)); [|discriminate].
  destruct (vlan_bit v) as [b|e] eqn:Eb; [|discriminate].
  intros E. injection E as <-.
  assert (Hv : MIN_VLAN <= v <= MAX_VLAN).
  { unfold vlan_bit, validate_vlan in Eb.
    destruct (v >=? MIN_VLAN) eqn:E1; destruct (v <=? MAX_VLAN) eqn:E2;
      simpl in Eb; try discriminate.
    apply Z.geb_le in E1. apply Z.leb_le in E2. lia. }
  destruct (vlan_bit_spec v Hv) as (g & _ & _ & Hk & Eb').
  rewrite Eb in Eb'. injection Eb' as ->. eauto.
Qed.

Lemma remove_vlan_inv (self self' : t) (v : Z) :
  remove_vlan self v = Ok self' ->
  self' = self \/
  exists b, self' = mk (_group self) (Z.land (_value self) (Z.lnot b)).
Proof.
  unfold remove_vlan. destruct (vlan_in_group v (_group self)).
  - destruct (vlan_bit v) as [b|e]; [|discriminate].
    intros E. injection E as <-. right. eauto.
  - intros E. injection E as <-. left. reflexivity.
Qed.

(** C6: on every string the validator accepts, [add_vlan_trunk_string]
    returns and leaves the mask equal to the old mask OR the decoded mask;
    every bit set before is still set, also after a later [add_vlan]. *)
Theorem add_vlan_trunk_string_is_union (self : t) (s : Py.str) :
  is_valid_vlan_trunk_string s = true ->
  exists d self',
    decode_trunk_string s = Ok d /\
    add_vlan_trunk_string self s = Ok self' /\
    _group self' = _group self /\
    _value self' = Z.lor (_value self) d /\
    (forall i, Z.testbit (_value self) i = true ->
               Z.testbit (_value self') i = true) /\
    (forall v self'', add_vlan self' v = Ok self'' ->
       forall i, Z.testbit (_value self') i = true ->
                 Z.testbit (_value self'') i = true).
Proof.
  intros H. destruct (decode_trunk_string_ok s H) as (d & Ed & _).
  exists d, (mk (_group self) (Z.lor (_value self) d)).
  split; [exact Ed|].
  split; [apply add_vlan_trunk_string_eq; assumption|].
  split; [reflexivity|]. split; [reflexivity|]. split.
  - intros i Hi. simpl. rewrite Z.lor_spec, Hi. reflexivity.
  - intros v self'' E i Hi. apply add_vlan_inv in E.
    destruct E as (k & _ & ->). simpl in *.
    rewrite Z.lor_spec, Hi. reflexivity.
Qed.

(** C7: [remove_vlan] with a VLAN id outside the store's group (the id
    minus 1024 times the group is not in [0, 1024], so [vlan_in_group]
    rejects it) returns without raising and leaves the store as it
    was. *)
Theorem remove_vlan_outside_group_is_noop (self : t) (v : Z) :
  ~ (0 <= v - _group self * 1024 <= 1024) ->
  vlan_in_group v (_group self) = false /\
  remove_vlan self v = Ok self.
Proof.
  intros H.
  assert (E : vlan_in_group v (_group self) = false).
  { unfold vlan_in_group, VLAN_GROUP_SIZE. apply andb_false_iff.
    destruct (Z_lt_le_dec (v - 1024 * _group self) 0) as [Hlt|Hge].
    - left. rewrite Z.geb_leb. apply Z.leb_gt. exact Hlt.
    - right. apply Z.leb_gt. lia. }
  split; [exact E|]. unfold remove_vlan. rewrite E. reflexivity.
Qed.

Lemma remove_vlan_outside_group_is_noop_witness :
  vlan_in_group 2000 (_group (mk 0 5)) = false /\
  remove_vlan (mk 0 5) 2000 = Ok (mk 0 5).
Proof.
  apply (remove_vlan_outside_group_is_noop (mk 0 5) 2000). simpl. lia.
Defined.

(** ** The mask-width invariant *)

Lemma call_preserves_fits (self self' : t) (op : operation) :
  fits (_value self) -> call self op = Ok self' -> fits (_value self').
Proof.
  intros Hm E. destruct op as [v|s|v]; simpl in E.
  - apply add_vlan_inv in E. destruct E as (k & Hk & ->). simpl.
    apply lor_fits; [unfold VLAN_GROUP_SIZE; lia | exact Hm |].
    apply pow2_fits. exact Hk.
  - destruct (is_valid_vlan_trunk_string s) eqn:Hs;
      [|unfold add_vlan_trunk_string in E; rewrite Hs in E; discriminate].
    destruct (decode_trunk_string_ok s Hs) as (d & Ed & Hd).
    rewrite (add_vlan_trunk_string_eq self s d Hs Ed) in E.
    injection E as <-. simpl.
    apply lor_fits; [unfold VLAN_GROUP_SIZE; lia | exact Hm | exact Hd].
  - apply remove_vlan_inv in E. destruct E as [-> | (b & ->)]; [exact Hm|].
    simpl. apply land_fits; [unfold VLAN_GROUP_SIZE; lia | exact Hm].
Qed.

(** C9: from the zero mask of a new store, whatever sequence of
    [add_vlan], [add_vlan_trunk_string] and [remove_vlan] calls is made
    (returning or raising), the mask stays a non-negative integer below
    [2^1024], and no bit outside positions 0 to 1023 is set. *)
Theorem mask_width_invariant (group : Z) (ops : list operation) :
  let final := fold_left after ops (__init__ group) in
  0 <= _value final < 2 ^ 1024 /\
  (forall i, Z.testbit (_value final) i = true -> 0 <= i <= 1023).
Proof.
  intros final.
  assert (H : fits (_value final)).
  { subst final.
    assert (H0 : fits (_value (__init__ group)))
      by (unfold fits, __init__; cbn [_value];
          split; [lia | apply Z.pow_pos_nonneg; unfold VLAN_GROUP_SIZE; lia]).
    revert H0. generalize (__init__ group).
    induction ops as [|op ops IH]; intros self H0; simpl; [exact H0|].
    apply IH. unfold after. destruct (call self op) as [self'|e] eqn:E;
      [apply (call_preserves_fits self self' op H0 E) | exact H0]. }
  split; [exact H|]. intros i Hi.
  pose proof (fits_bits _ i H Hi) as Hb. unfold VLAN_GROUP_SIZE in Hb. lia.
Qed.

(** ** Concrete strings *)

Lemma wire_grammar_length (s : Py.str) :
  wire_grammar s -> List.length s = 383%nat.
Proof.
  intros (toks & Hl & Hf & ->).
  destruct toks as [|t toks]; [discriminate|].
  inversion Hf as [|? ? (a & b & -> & _ & _) Hf']; subst.
  injection Hl as Hl. rewrite join_space_cons, length_app.
  assert (H : List.length (List.concat (map (cons space) toks)) =
              (3 * List.length toks)%nat).
  { clear Hl Hf. induction Hf' as [|t toks (a' & b' & -> & _ & _) _ IH];
      [reflexivity|].
    simpl List.concat. simpl List.length. simpl List.length in IH. lia. }
  rewrite H, Hl. reflexivity.
Qed.

Lemma rejected_examples :
  is_valid_vlan_trunk_string (Py.join [space] (repeat (Py.lit "00") 127)) = false /\
  is_valid_vlan_trunk_string (Py.join [space] (Py.lit "0a" :: repeat (Py.lit "00") 127)) = false /\
  is_valid_vlan_trunk_string (Py.lit "00 " ++ zero_string) = false /\
  is_valid_vlan_trunk_string (space :: zero_string) = false /\
  is_valid_vlan_trunk_string (zero_string ++ [space]) = false /\
  is_valid_vlan_trunk_string zero_string = true.
Proof. vm_compute. repeat split. Qed.

(** C2, at the input that separates the code from the grammar: 128 tokens
    [00] followed by one newline are not a string of the grammar, yet the
    validator accepts them and [add_vlan_trunk_string] decodes them
    instead of raising. *)
Theorem trailing_newline_is_accepted :
  ~ wire_grammar (zero_string ++ [newline]) /\
  is_valid_vlan_trunk_string (zero_string ++ [newline]) = true /\
  add_vlan_trunk_string (__init__ 0) (zero_string ++ [newline]) = Ok (__init__ 0).
Proof.
  split.
  - intros H. apply wire_grammar_length in H. vm_compute in H. discriminate H.
  - split; vm_compute; reflexivity.
Qed.

Lemma add_vlan_trunk_string_is_union_witness :
  exists d self',
    decode_trunk_string test_string = Ok d /\
    add_vlan_trunk_string (mk 0 6) test_string = Ok self' /\
    _group self' = _group (mk 0 6) /\
    _value self' = Z.lor (_value (mk 0 6)) d /\
    (forall i, Z.testbit (_value (mk 0 6)) i = true ->
               Z.testbit (_value self') i = true) /\
    (forall v self'', add_vlan self' v = Ok self'' ->
       forall i, Z.testbit (_value self') i = true ->
                 Z.testbit (_value self'') i = true).
Proof.
  apply (add_vlan_trunk_string_is_union (mk 0 6) test_string).
  vm_compute. reflexivity.
Defined.

(** C8: for group 1, 2 or 3, [add_vlan] of the boundary id [g*1024] on the
    store of group [g] returns, [has_vlan] then answers true for that id,
    and [vlans] lists [(g+1)*1024] alone: [group_for_vlan] files the id
    under group [g-1], so the bit set is bit 1023. *)
Theorem boundary_vlan_is_misfiled (g : Z) :
  In g [1; 2; 3] ->
  exists self,
    vlan_in_group (g * 1024) g = true /\
    group_for_vlan (g * 1024) = Ok (g - 1) /\
    add_vlan (__init__ g) (g * 1024) = Ok self /\
    _value self = Z.shiftl 1 1023 /\
    has_vlan self (g * 1024) = Ok true /\
    vlans self = Ok [(g + 1) * 1024].
Proof.
  intros H. exists (mk g (Z.shiftl 1 1023)).
  simpl in H. destruct H as [<- | [<- | [<- | []]]];
    vm_compute; repeat split.
Qed.

Lemma boundary_vlan_is_misfiled_witness :
  exists self,
    vlan_in_group (1 * 1024) 1 = true /\
    group_for_vlan (1 * 1024) = Ok (1 - 1) /\
    add_vlan (__init__ 1) (1 * 1024) = Ok self /\
    _value self = Z.shiftl 1 1023 /\
    has_vlan self (1 * 1024) = Ok true /\
    vlans self = Ok [(1 + 1) * 1024].
Proof. apply (boundary_vlan_is_misfiled 1). simpl. auto. Defined.

(** C10: for each group 0 to 3, adding the group's first VLAN
    [g*1024 + 1] to a new store and exporting gives the string whose
    first token is [80] and whose other 127 tokens are [00]. *)
Theorem first_vlan_exports_80 (g : Z) :
  In g [0; 1; 2; 3] ->
  (self <- add_vlan (__init__ g) (g * 1024 + 1) ;;
   get_vlan_trunk_string self)
  = Ok (Py.join [space] (Py.lit "80" :: repeat (Py.lit "00") 127)).
Proof.
  intros H. simpl in H. destruct H as [<- | [<- | [<- | [<- | []]]]];
    vm_compute; reflexivity.
Qed.

Lemma first_vlan_exports_80_witness :
  (self <- add_vlan (__init__ 3) (3 * 1024 + 1) ;;
   get_vlan_trunk_string self)
  = Ok (Py.join [space] (Py.lit "80" :: repeat (Py.lit "00") 127)).
Proof. apply (first_vlan_exports_80 3). simpl. auto. Defined.

Lemma test_string_is_that_export :
  test_string = Py.join [space] (Py.lit "80" :: repeat (Py.lit "00") 127).
Proof. vm_compute. reflexivity. Qed.

(** ** Adding a list of VLANs of one group *)

Lemma add_vlan_canonical (g m v : Z) :
  group_for_vlan v = Ok g ->
  0 <= v - g * VLAN_GROUP_SIZE - 1 < VLAN_GROUP_SIZE /\
  add_vlan (mk g m) v = Ok (mk g (Z.lor m (2 ^ (v - g * VLAN_GROUP_SIZE - 1)))).
Proof.
  intros E. destruct (group_for_vlan_inv v g E) as (Hv & Hg & Hr).
  destruct (vlan_bit_spec v Hv) as (g' & E' & _ & Hk & Eb).
  rewrite E in E'. injection E' as <-. split; [exact Hk|].
  unfold add_vlan. cbn [_group _value].
  replace (vlan_in_group v g) with true.
  - rewrite Eb. reflexivity.
  - symmetry. unfold vlan_in_group. apply andb_true_iff.
    split; [apply Z.geb_le | apply Z.leb_le]; lia.
Qed.

Lemma for_each_add_vlan (g : Z) (l : list Z) :
  Forall (fun v => group_for_vlan v = Ok g) l ->
  forall m, fits m ->
  exists m', for_each add_vlan l (mk g m) = Ok (mk g m') /\ fits m' /\
             forall i, Z.testbit m' i = true <->
                       Z.testbit m i = true \/ In (i + 1 + VLAN_GROUP_SIZE * g) l.
Proof.
  induction 1 as [|v l Hv _ IH]; intros m Hm.
  - exists m. split; [reflexivity|]. split; [exact Hm|]. intros i. simpl. tauto.
  - destruct (add_vlan_canonical g m v Hv) as (Hk & Ea).
    set (k := v - g * VLAN_GROUP_SIZE - 1) in *.
    assert (Hm1 : fits (Z.lor m (2 ^ k))).
    { apply lor_fits; [unfold VLAN_GROUP_SIZE; lia | exact Hm |].
      apply pow2_fits. exact Hk. }
    destruct (IH _ Hm1) as (m' & E & Hm' & Hbits).
    exists m'. simpl for_each. rewrite Ea. unfold bind.
    split; [exact E|]. split; [exact Hm'|].
    intros i. rewrite Hbits, Z.lor_spec, Z.pow2_bits_eqb by lia.
    rewrite orb_true_iff, Z.eqb_eq. cbn [In]. subst k. split.
    + intros [[H|H]|H]; [left; exact H | right; left; lia | right; right; exact H].
    + intros [H|[H|H]]; [left; left; exact H | left; right; lia | right; exact H].
Qed.

(** ** Export: the bytes and their tokens *)

Lemma stride2_cons (b : ascii) (s : Py.str) :
  Py.stride2 (b :: s) = b :: Py.stride2_from1 s.
Proof. destruct s; reflexivity. Qed.

Lemma stride2_two (a b : ascii) (t : Py.str) :
  Py.stride2 (a :: b :: t) = a :: Py.stride2 t.
Proof. reflexivity. Qed.

Lemma stride2_from1_two (a b : ascii) (t : Py.str) :
  Py.stride2_from1 (a :: b :: t) = b :: Py.stride2_from1 t.
Proof. unfold Py.stride2_from1 at 1. cbn [tl]. apply stride2_cons. Qed.

Lemma hex_list_eq (bs : list Z) :
  map (fun ab : ascii * ascii => [fst ab] ++ [snd ab])
      (combine (Py.stride2 (Py.upper (Py.hex bs)))
               (Py.stride2_from1 (Py.upper (Py.hex bs))))
  = map byte_token bs.
Proof.
  induction bs as [|x bs IH]; [reflexivity|].
  change (Py.upper (Py.hex (x :: bs)))
    with (Py.upper_char (Py.hex_digit (x / 16))
          :: Py.upper_char (Py.hex_digit (x mod 16)) :: Py.upper (Py.hex bs)).
  rewrite stride2_two, stride2_from1_two.
  cbn [combine map fst snd app]. unfold byte_token at 1.
  apply (f_equal (cons _)). exact IH.
Qed.

Lemma nibble_facts (d : Z) :
  0 <= d < 16 ->
  upper_hex (Py.upper_char (Py.hex_digit d)) = true /\
  digit_or0 (Py.upper_char (Py.hex_digit d)) = d.
Proof.
  intros H.
  assert (Hd : d = 0 \/ d = 1 \/ d = 2 \/ d = 3 \/ d = 4 \/ d = 5 \/ d = 6 \/
               d = 7 \/ d = 8 \/ d = 9 \/ d = 10 \/ d = 11 \/ d = 12 \/
               d = 13 \/ d = 14 \/ d = 15) by lia.
  repeat (destruct Hd as [-> | Hd]; [vm_compute; split; reflexivity|]).
  subst d. vm_compute. split; reflexivity.
Qed.

Lemma byte_token_ok (x : Z) : is_byte x -> token (byte_token x).
Proof.
  intros H. unfold is_byte in H. exists (Py.upper_char (Py.hex_digit (x / 16))),
    (Py.upper_char (Py.hex_digit (x mod 16))).
  split; [reflexivity|].
  split; apply nibble_facts; [|apply Z.mod_pos_bound; lia].
  split; [apply Z.div_pos; lia | apply Z.div_lt_upper_bound; lia].
Qed.

Lemma str_value_byte_tokens (bs : list Z) :
  Forall is_byte bs ->
  str_value 16 (List.concat (map byte_token bs)) = be_value bs.
Proof.
  unfold str_value, be_value. generalize 0.
  intros acc H. revert acc.
  induction H as [|x bs Hx _ IH]; intros acc; [reflexivity|].
  unfold is_byte in Hx.
  cbn [map List.concat byte_token app fold_left]. rewrite IH. f_equal.
  destruct (nibble_facts (x / 16)) as [_ ->];
    [split; [apply Z.div_pos; lia | apply Z.div_lt_upper_bound; lia]|].
  destruct (nibble_facts (x mod 16)) as [_ ->];
    [apply Z.mod_pos_bound; lia|].
  pose proof (Z.div_mod x 16 ltac:(lia)). lia.
Qed.

Lemma to_bytes_little_bytes (n : nat) :
  forall x, Forall is_byte (Py.to_bytes_little n x) /\
            List.length (Py.to_bytes_little n x) = n.
Proof.
  induction n as [|n IH]; intros x; simpl.
  - split; [constructor | reflexivity].
  - destruct (IH (x / 256)) as [H1 H2]. split.
    + constructor; [apply Z.mod_pos_bound; lia | exact H1].
    + rewrite H2. reflexivity.
Qed.

Lemma be_value_to_bytes_little (n : nat) :
  forall x, be_value (rev (Py.to_bytes_little n x)) = x mod 2 ^ (8 * Z.of_nat n).
Proof.
  unfold be_value. induction n as [|n IH]; intros x.
  - simpl. rewrite Z.mod_1_r. reflexivity.
  - cbn [Py.to_bytes_little rev]. rewrite fold_left_app. cbn [fold_left].
    rewrite IH.
    replace (8 * Z.of_nat (S n)) with (8 + 8 * Z.of_nat n) by lia.
    rewrite Z.pow_add_r by lia. change (2 ^ 8) with 256.
    rewrite Z.rem_mul_r by (try lia; apply Z.pow_pos_nonneg; lia).
    lia.
Qed.

Lemma filter_join_tokens (toks : list Py.str) :
  Forall token toks ->
  filter not_space (Py.join [space] toks) = List.concat toks.
Proof.
  intros Hf. destruct toks as [|t toks]; [reflexivity|].
  inversion Hf as [|? ? (a & b & -> & Ha & Hb) Hf']; subst.
  rewrite join_space_cons, filter_app, filter_tokens by exact Hf'.
  simpl. destruct (upper_hex_facts a Ha) as [-> _].
  destruct (upper_hex_facts b Hb) as [-> _]. reflexivity.
Qed.

(** Exporting a mask that fits gives a string of the grammar which
    decodes to that mask. *)
Lemma export_then_decode (g m : Z) :
  fits m ->
  exists w, get_vlan_trunk_string (mk g m) = Ok w /\
            wire_grammar w /\
            is_valid_vlan_trunk_string w = true /\
            decode_trunk_string w = Ok m.
Proof.
  intros Hm. unfold fits in Hm.
  assert (Hw : 0 < VLAN_GROUP_SIZE) by (unfold VLAN_GROUP_SIZE; lia).
  destruct (reverse_bits_bounds m VLAN_GROUP_SIZE Hm Hw) as (r & Er & Hr).
  pose proof (reverse_bits_involutive m VLAN_GROUP_SIZE Hm Hw) as Hinv.
  rewrite Er in Hinv. unfold bind in Hinv.
  set (bs := rev (Py.to_bytes_little (Z.to_nat BYTES_PER_GROUP) r)).
  assert (Eb : Py.to_bytes r BYTES_PER_GROUP = Ok bs).
  { unfold Py.to_bytes.
    replace (r <? 0) with false by (symmetry; apply Z.ltb_ge; lia).
    change (2 ^ (8 * BYTES_PER_GROUP)) with (2 ^ VLAN_GROUP_SIZE).
    replace (2 ^ VLAN_GROUP_SIZE <=? r) with false
      by (symmetry; apply Z.leb_gt; lia).
    reflexivity. }
  destruct (to_bytes_little_bytes (Z.to_nat BYTES_PER_GROUP) r) as [Hbytes Hlen].
  assert (Hbs : Forall is_byte bs) by (apply Forall_rev; exact Hbytes).
  assert (Htok : Forall token (map byte_token bs)).
  { apply Forall_map. revert Hbs. apply Forall_impl. exact byte_token_ok. }
  assert (Hval : be_value bs = r).
  { unfold bs. rewrite be_value_to_bytes_little.
    change (2 ^ (8 * Z.of_nat (Z.to_nat BYTES_PER_GROUP)))
      with (2 ^ VLAN_GROUP_SIZE).
    apply Z.mod_small. exact Hr. }
  exists (Py.join [space] (map byte_token bs)).
  assert (Hg : wire_grammar (Py.join [space] (map byte_token bs))).
  { exists (map byte_token bs). split; [|split; [exact Htok | reflexivity]].
    unfold bs. rewrite length_map, length_rev, Hlen. reflexivity. }
  assert (Hvalid : is_valid_vlan_trunk_string
                     (Py.join [space] (map byte_token bs)) = true).
  { apply is_valid_vlan_trunk_string_iff. eexists. split; [exact Hg | left; reflexivity]. }
  split; [|split; [exact Hg | split; [exact Hvalid|]]].
  - unfold get_vlan_trunk_string. cbn [_value]. rewrite Er. unfold bind.
    rewrite Eb, hex_list_eq. reflexivity.
  - unfold decode_trunk_string.
    rewrite join_split, filter_join_tokens by exact Htok.
    destruct (tokens_digits _ Htok) as [Hd Hl].
    rewrite int_ok; [|intros E0; rewrite E0 in Hl; rewrite length_map in Hl;
                       unfold bs in Hl; rewrite length_rev, Hlen in Hl;
                       discriminate Hl | exact Hd].
    unfold bind. rewrite str_value_byte_tokens, Hval by exact Hbs.
    exact Hinv.
Qed.

(** ** Listing the VLANs of a mask *)

Lemma land_pow2 (i m : Z) :
  0 <= i -> Z.land (2 ^ i) m = if Z.testbit m i then 2 ^ i else 0.
Proof.
  intros Hi. apply Z.bits_inj'. intros n Hn.
  rewrite Z.land_spec, Z.pow2_bits_eqb by assumption.
  destruct (Z.eqb_spec i n) as [<- | Hne].
  - destruct (Z.testbit m i); [|rewrite Z.bits_0; reflexivity].
    rewrite Z.pow2_bits_eqb, Z.eqb_refl by assumption. reflexivity.
  - destruct (Z.testbit m i); [|rewrite Z.bits_0; reflexivity].
    rewrite Z.pow2_bits_eqb by assumption.
    symmetry. apply Z.eqb_neq. exact Hne.
Qed.

Lemma bits_to_vlans_step_eq (m g : Z) (acc : list Z) (i : Z) :
  0 <= i ->
  bits_to_vlans_step m g acc i =
  Ok (if Z.testbit m i then acc ++ [vlan_at g i] else acc).
Proof.
  intros Hi. unfold bits_to_vlans_step, Py.lshift.
  replace (i <? 0) with false by (symmetry; apply Z.ltb_ge; exact Hi).
  unfold bind. rewrite Z.shiftl_1_l, land_pow2 by assumption.
  destruct (Z.testbit m i).
  - replace (2 ^ i =? 0) with false
      by (symmetry; apply Z.eqb_neq; pose proof (Z.pow_pos_nonneg 2 i); lia).
    rewrite bit_to_vlan_pow2 by assumption. reflexivity.
  - reflexivity.
Qed.

Lemma for_each_bits_to_vlans (m g : Z) (l : list Z) :
  Forall (fun i => 0 <= i) l ->
  forall acc,
    for_each (bits_to_vlans_step m g) l acc =
    Ok (acc ++ map (vlan_at g) (filter (Z.testbit m) l)).
Proof.
  induction 1 as [|i l Hi _ IH]; intros acc.
  - simpl. rewrite app_nil_r. reflexivity.
  - cbn [for_each filter]. rewrite bits_to_vlans_step_eq by assumption.
    unfold bind. rewrite IH. destruct (Z.testbit m i); [|reflexivity].
    rewrite <- app_assoc. reflexivity.
Qed.

Lemma in_range (n i : Z) : In i (Py.range n) <-> 0 <= i < n.
Proof.
  unfold Py.range. rewrite in_map_iff. split.
  - intros (k & <- & Hk). apply in_seq in Hk. lia.
  - intros H. exists (Z.to_nat i). split; [lia|]. apply in_seq. lia.
Qed.

Lemma bits_to_vlans_eq (m g : Z) :
  bits_to_vlans m g =
  Ok (map (vlan_at g) (filter (Z.testbit m) (Py.range VLAN_GROUP_SIZE))).
Proof.
  unfold bits_to_vlans. rewrite for_each_bits_to_vlans; [reflexivity|].
  apply Forall_forall. intros i Hi. apply in_range in Hi. lia.
Qed.

Lemma listed_ascending (m g : Z) (n a : nat) :
  let l := map (vlan_at g)
             (filter (Z.testbit m) (map Z.of_nat (seq a n))) in
  StronglySorted Z.lt l /\ Forall (fun v => vlan_at g (Z.of_nat a) <= v) l.
Proof.
  revert a. induction n as [|n IH]; intros a; cbn zeta.
  - split; constructor.
  - destruct (IH (S a)) as [Hs Hf]. cbn [seq map filter].
    assert (Hf' : Forall (fun v => vlan_at g (Z.of_nat a) < v)
                    (map (vlan_at g)
                       (filter (Z.testbit m) (map Z.of_nat (seq (S a) n))))).
    { revert Hf. apply Forall_impl. intros v. unfold vlan_at. lia. }
    destruct (Z.testbit m (Z.of_nat a)).
    + cbn [map]. split.
      * constructor; assumption.
      * constructor; [lia|]. revert Hf'. apply Forall_impl. intros v. lia.
    + split; [exact Hs|]. revert Hf'. apply Forall_impl. intros v. lia.
Qed.

(** ** [sorted] *)

Lemma insert_perm (x : Z) (l : list Z) : Permutation (Py.insert x l) (x :: l).
Proof.
  induction l as [|y l IH]; simpl; [reflexivity|].
  destruct (x <=? y); [reflexivity|].
  rewrite IH. apply perm_swap.
Qed.

Lemma sorted_perm (l : list Z) : Permutation (Py.sorted l) l.
Proof.
  induction l as [|x l IH]; simpl; [reflexivity|].
  rewrite insert_perm. constructor. exact IH.
Qed.

Lemma insert_ascending (x : Z) (l : list Z) :
  StronglySorted Z.le l -> StronglySorted Z.le (Py.insert x l).
Proof.
  induction 1 as [|y l Hs IH Hf]; simpl.
  - constructor; constructor.
  - destruct (Z.leb_spec x y) as [Hle|Hgt].
    + constructor; [constructor; assumption|].
      constructor; [exact Hle|]. revert Hf. apply Forall_impl. intros v. lia.
    + constructor; [exact IH|].
      eapply Permutation_Forall; [symmetry; apply insert_perm|].
      constructor; [lia | exact Hf].
Qed.

Lemma sorted_ascending (l : list Z) : StronglySorted Z.le (Py.sorted l).
Proof.
  induction l as [|x l IH]; simpl; [constructor|].
  apply insert_ascending. exact IH.
Qed.

(** A strictly ascending list is determined by its elements. *)
Lemma ascending_unique (a : list Z) :
  forall b, StronglySorted Z.lt a -> StronglySorted Z.le b -> NoDup b ->
            (forall x, In x a <-> In x b) -> a = b.
Proof.
  induction a as [|x a IH]; intros b Ha Hb Hnd Hin.
  - destruct b as [|y b]; [reflexivity|].
    exfalso. apply (Hin y). left. reflexivity.
  - destruct b as [|y b]; [exfalso; apply (Hin x); left; reflexivity|].
    apply StronglySorted_inv in Ha. destruct Ha as [Ha Hxa].
    apply StronglySorted_inv in Hb. destruct Hb as [Hb Hyb].
    apply NoDup_cons_iff in Hnd. destruct Hnd as [Hy Hnd].
    rewrite Forall_forall in Hxa, Hyb.
    assert (Exy : x = y).
    { assert (H1 : y <= x).
      { destruct (proj1 (Hin x) (or_introl eq_refl)) as [E|H]; [lia|].
        apply Hyb. exact H. }
      assert (H2 : x <= y).
      { destruct (proj2 (Hin y) (or_introl eq_refl)) as [E|H]; [lia|].
        apply Hxa in H. lia. }
      lia. }
    subst y. f_equal. apply IH; try assumption.
    intros z. split; intros Hz.
    + destruct (proj1 (Hin z) (or_intror Hz)) as [E|H]; [|exact H].
      apply Hxa in Hz. lia.
    + destruct (proj2 (Hin z) (or_intror Hz)) as [E|H]; [|exact H].
      subst z. contradiction.
Qed.

(** ** Round trip *)

Lemma vlans_of_mask (g m : Z) (l : list Z) :
  NoDup l ->
  Forall (fun v => group_for_vlan v = Ok g) l ->
  fits m ->
  (forall i, Z.testbit m i = true <-> In (vlan_at g i) l) ->
  vlans (mk g m) = Ok (Py.sorted l).
Proof.
  intros Hnd Hl Hm Hbits. unfold vlans. cbn [_value _group].
  rewrite bits_to_vlans_eq. f_equal.
  apply ascending_unique.
  - apply (listed_ascending m g (Z.to_nat VLAN_GROUP_SIZE) 0).
  - apply sorted_ascending.
  - eapply Permutation_NoDup; [symmetry; apply sorted_perm | exact Hnd].
  - intros v. rewrite in_map_iff. split.
    + intros (i & <- & Hi). apply filter_In in Hi. destruct Hi as [_ Hi].
      apply (Permutation_in _ (Permutation_sym (sorted_perm l))).
      apply Hbits. exact Hi.
    + intros Hv. apply (Permutation_in _ (sorted_perm l)) in Hv.
      rewrite Forall_forall in Hl.
      destruct (group_for_vlan_inv v g (Hl v Hv)) as (_ & _ & Hr).
      exists (v - VLAN_GROUP_SIZE * g - 1).
      assert (Ev : vlan_at g (v - VLAN_GROUP_SIZE * g - 1) = v)
        by (unfold vlan_at; lia).
      split; [exact Ev|]. apply filter_In. split.
      * apply in_range. lia.
      * apply Hbits. rewrite Ev. exact Hv.
Qed.

(** C1: for each group 0 to 3 and each set [l] of VLAN ids whose group is
    that group, adding every id of [l] to a new store, exporting, and
    importing the exported string into another new store of the group
    gives a store whose [vlans] is [l] in ascending order. *)
Theorem round_trip (g : Z) (l : list Z) :
  In g [0; 1; 2; 3] ->
  NoDup l ->
  Forall (fun v => group_for_vlan v = Ok g) l ->
  (filled <- for_each add_vlan l (__init__ g) ;;
   wire <- get_vlan_trunk_string filled ;;
   fresh <- add_vlan_trunk_string (__init__ g) wire ;;
   vlans fresh)
  = Ok (Py.sorted l).
Proof.
  intros _ Hnd Hl.
  assert (H0 : fits 0)
    by (split; [lia | apply Z.pow_pos_nonneg; unfold VLAN_GROUP_SIZE; lia]).
  destruct (for_each_add_vlan g l Hl 0 H0) as (m & Em & Hm & Hbits).
  unfold __init__. rewrite Em. unfold bind at 1.
  destruct (export_then_decode g m Hm) as (w & Ew & _ & Hvalid & Ed).
  rewrite Ew. unfold bind at 1.
  rewrite (add_vlan_trunk_string_eq (mk g 0) w m Hvalid Ed).
  unfold bind. cbn [_group _value]. rewrite Z.lor_0_l.
  apply vlans_of_mask; try assumption.
  intros i. rewrite Hbits, Z.bits_0. unfold vlan_at. split.
  - intros [H|H]; [discriminate | exact H].
  - intros H. right. exact H.
Qed.

Lemma round_trip_witness :
  (filled <- for_each add_vlan [2048; 1025; 1500] (__init__ 1) ;;
   wire <- get_vlan_trunk_string filled ;;
   fresh <- add_vlan_trunk_string (__init__ 1) wire ;;
   vlans fresh)
  = Ok (Py.sorted [2048; 1025; 1500]).
Proof.
  apply (round_trip 1 [2048; 1025; 1500]).
  - simpl. auto.
  - repeat constructor; simpl; intuition discriminate.
  - repeat constructor.
Defined.

(** * Further properties of the module *)

(** ** Validation *)

Lemma validate_vlan_raises (v : Z) :
  ~ (MIN_VLAN <= v <= MAX_VLAN) -> validate_vlan v false = Raise ValueError.
Proof.
  intros H. unfold validate_vlan.
  destruct (v >=? MIN_VLAN) eqn:E1; [|reflexivity].
  destruct (v <=? MAX_VLAN) eqn:E2; [|reflexivity].
  apply Z.geb_le in E1. apply Z.leb_le in E2. lia.
Qed.

(** X1: [is_valid_vlan] never raises and answers whether the id lies in
    1..4094; [group_for_vlan] and [vlan_bit] return on exactly the ids it
    accepts and raise [ValueError] on all the others. *)
Theorem is_valid_vlan_decides (v : Z) :
  is_valid_vlan v = Ok ((1 <=? v) && (v <=? 4094)) /\
  (1 <= v <= 4094 ->
   exists g b, group_for_vlan v = Ok g /\ vlan_bit v = Ok b) /\
  (~ (1 <= v <= 4094) ->
   group_for_vlan v = Raise ValueError /\ vlan_bit v = Raise ValueError).
Proof.
  split; [|split].
  - unfold is_valid_vlan, validate_vlan, MIN_VLAN, MAX_VLAN.
    rewrite Z.geb_leb. destruct ((1 <=? v) && (v <=? 4094)); reflexivity.
  - intros H. destruct (vlan_bit_spec v H) as (g & Eg & _ & _ & Eb). eauto.
  - intros H. unfold group_for_vlan, vlan_bit.
    rewrite validate_vlan_raises by exact H. split; reflexivity.
Qed.

(** X2: on a valid id the group is the quotient of [v - 1] by 1024, the
    only group whose range [g*1024 + 1 .. g*1024 + 1024] holds the id. *)
Theorem group_for_vlan_closed_form (v : Z) :
  1 <= v <= 4094 ->
  group_for_vlan v = Ok ((v - 1) / 1024) /\
  (forall g, g * 1024 + 1 <= v <= g * 1024 + 1024 -> g = (v - 1) / 1024).
Proof.
  intros H. destruct (group_for_vlan_spec v H) as (g & E & _ & Hr).
  unfold VLAN_GROUP_SIZE in Hr. split.
  - rewrite E. f_equal. apply Z.div_unique with (r := v - 1 - 1024 * g); lia.
  - intros g' Hg'. apply Z.div_unique with (r := v - 1 - 1024 * g'); lia.
Qed.

Lemma group_for_vlan_closed_form_witness :
  group_for_vlan 3000 = Ok ((3000 - 1) / 1024) /\
  (forall g, g * 1024 + 1 <= 3000 <= g * 1024 + 1024 -> g = (3000 - 1) / 1024).
Proof. apply (group_for_vlan_closed_form 3000). lia. Defined.

(** ** [bit_to_vlan] and [bits_to_vlans] *)

Lemma count_app (c : ascii) (a b : Py.str) :
  Py.count c (a ++ b) = Py.count c a + Py.count c b.
Proof. unfold Py.count. rewrite filter_app, length_app. lia. Qed.

Lemma pow2_not_odd (q : positive) (i : Z) : 0 <= i -> Zpos (xI q) <> 2 ^ i.
Proof.
  intros Hi E. destruct (Z.eq_dec i 0) as [-> | Hne].
  - simpl in E. lia.
  - replace i with (Z.succ (i - 1)) in E by lia.
    rewrite Z.pow_succ_r in E by lia. lia.
Qed.

(** The binary text of a positive number has a single [1] exactly when
    the number is a power of two, and then its length tells which. *)
Lemma pos_digits_ones (p : positive) :
  1 <= Py.count "1"%char (Py.pos_digits p []) /\
  ((Py.count "1"%char (Py.pos_digits p []) = 1 /\
    Zpos p = 2 ^ (Py.len (Py.pos_digits p []) - 1)) \/
   (1 < Py.count "1"%char (Py.pos_digits p []) /\
    forall i, 0 <= i -> Zpos p <> 2 ^ i)).
Proof.
  induction p as [q IH|q IH|].
  - simpl Py.pos_digits. rewrite pos_digits_acc, count_app.
    change (Py.count "1" ["1"%char]) with 1. destruct IH as [H1 _].
    split; [lia|]. right. split; [lia|]. intros i Hi. apply pow2_not_odd. exact Hi.
  - simpl Py.pos_digits. rewrite pos_digits_acc, count_app.
    change (Py.count "1" ["0"%char]) with 0. rewrite Z.add_0_r.
    destruct IH as [H1 IH]. split; [exact H1|].
    destruct IH as [[Hc Hp] | [Hc Hn]].
    + left. split; [exact Hc|].
      unfold Py.len in *. rewrite length_app, Nat2Z.inj_add. simpl List.length.
      replace (Z.of_nat (List.length (Py.pos_digits q [])) + Z.of_nat 1 - 1)
        with (Z.succ (Z.of_nat (List.length (Py.pos_digits q [])) - 1)) by lia.
      destruct (pos_digits_head q []) as (t & Et).
      rewrite Z.pow_succ_r by (rewrite Et; simpl List.length; lia).
      rewrite <- Hp. reflexivity.
    + right. split; [exact Hc|]. intros i Hi E.
      destruct (Z.eq_dec i 0) as [-> | Hne]; [simpl in E; lia|].
      apply (Hn (i - 1)); [lia|].
      replace i with (Z.succ (i - 1)) in E by lia.
      rewrite Z.pow_succ_r in E by lia. lia.
  - split; [vm_compute; discriminate|]. left. split; reflexivity.
Qed.

(** X3: [bit_to_vlan] returns exactly on the integers with a single bit
    set, [2^i] giving VLAN [i + 1 + 1024*group]; on 0, on a negative
    number and on a number with several bits set it raises
    [ValueError]. *)
Theorem bit_to_vlan_single_bit (bit_value group : Z) :
  (exists i, 0 <= i /\ bit_value = 2 ^ i /\
             bit_to_vlan bit_value group = Ok (i + 1 + 1024 * group)) \/
  ((forall i, 0 <= i -> bit_value <> 2 ^ i) /\
   bit_to_vlan bit_value group = Raise ValueError).
Proof.
  destruct bit_value as [|p|p].
  - right. split; [|reflexivity]. intros i Hi E.
    pose proof (Z.pow_pos_nonneg 2 i ltac:(lia) Hi). lia.
  - destruct (pos_digits_ones p) as [_ [[Hc Hp] | [Hc Hn]]].
    + left. exists (Py.len (Py.pos_digits p []) - 1).
      assert (Hl : 0 <= Py.len (Py.pos_digits p []) - 1).
      { destruct (pos_digits_head p []) as (t & Et). unfold Py.len.
        rewrite Et. simpl List.length. lia. }
      split; [exact Hl|]. split; [exact Hp|].
      rewrite Hp at 1. rewrite bit_to_vlan_pow2 by exact Hl. reflexivity.
    + right. split; [exact Hn|]. unfold bit_to_vlan.
      change (Z.pos p =? 0) with false. change (Z.pos p <? 0) with false.
      cbv iota. fold (bit_string (Z.pos p)). rewrite bit_string_pos.
      replace (Py.count "1" (Py.pos_digits p []) >? 1) with true
        by (symmetry; apply Z.gtb_lt; lia).
      reflexivity.
  - right. split; [|reflexivity]. intros i Hi E.
    pose proof (Z.pow_pos_nonneg 2 i ltac:(lia) Hi). lia.
Qed.

(** X4: [bits_to_vlans] never raises, whatever integer it is given; its
    list is strictly ascending and holds exactly the ids
    [i + 1 + 1024*group] of the bits [i] in 0..1023 that are set (bits
    from 1024 up are not looked at). *)
Theorem bits_to_vlans_lists_set_bits (bit_values group : Z) :
  exists l, bits_to_vlans bit_values group = Ok l /\
            StronglySorted Z.lt l /\
            forall v, In v l <->
                      exists i, 0 <= i < 1024 /\
                                Z.testbit bit_values i = true /\
                                v = i + 1 + 1024 * group.
Proof.
  eexists. split; [apply bits_to_vlans_eq|]. split.
  - apply (listed_ascending bit_values group (Z.to_nat VLAN_GROUP_SIZE) 0).
  - intros v. rewrite in_map_iff. split.
    + intros (i & <- & Hi). apply filter_In in Hi. destruct Hi as [Hr Hb].
      apply in_range in Hr. exists i. unfold vlan_at, VLAN_GROUP_SIZE in *. auto.
    + intros (i & Hr & Hb & ->). exists i. split; [reflexivity|].
      apply filter_In. split; [apply in_range; exact Hr | exact Hb].
Qed.

(** ** [reverse_bits], bit by bit *)

Lemma testbit_double_plus (v d : Z) (i : nat) :
  d = 0 \/ d = 1 ->
  Z.testbit (2 * v + d) (Z.of_nat i) =
  match i with
  | O => d =? 1
  | S j => Z.testbit v (Z.of_nat j)
  end.
Proof.
  intros Hd. destruct i as [|j].
  - destruct Hd as [-> | ->].
    + rewrite Z.add_0_r. apply Z.testbit_even_0.
    + apply Z.testbit_odd_0.
  - rewrite Nat2Z.inj_succ. destruct Hd as [-> | ->].
    + rewrite Z.add_0_r. apply Z.testbit_even_succ. lia.
    + apply Z.testbit_odd_succ. lia.
Qed.

(** Bit [i] of the value of binary text is its [i]-th character from the
    right. *)
Lemma str_value_testbit (s : Py.str) :
  digits_of 2 s ->
  forall i : nat,
    Z.testbit (str_value 2 s) (Z.of_nat i) =
    Ascii.eqb (nth i (rev s) "0"%char) "1"%char.
Proof.
  induction s as [|c s IH] using rev_ind; intros H i.
  - change (str_value 2 []) with 0. rewrite Z.bits_0.
    destruct i; reflexivity.
  - apply Forall_app in H. destruct H as [Hs Hc]. apply Forall_inv in Hc.
    rewrite str_value_snoc, rev_app_distr. cbn [rev app].
    destruct (valid_digit_2 c Hc) as [-> | ->].
    + change (digit_or0 "0") with 0.
      rewrite testbit_double_plus by (left; reflexivity).
      destruct i as [|j]; [reflexivity | apply IH; exact Hs].
    + change (digit_or0 "1") with 1.
      rewrite testbit_double_plus by (right; reflexivity).
      destruct i as [|j]; [reflexivity | apply IH; exact Hs].
Qed.

Lemma reverse_bits_testbit (x w : Z) (i : Z) :
  0 <= x < 2 ^ w -> 0 < w -> 0 <= i < w ->
  Z.testbit (str_value 2 (rev (padded_string x w))) i = Z.testbit x (w - 1 - i).
Proof.
  intros Hx Hw Hi.
  assert (Hd : digits_of 2 (padded_string x w))
    by (apply digits_of_padded_string; lia).
  assert (Hl : List.length (padded_string x w) = Z.to_nat w).
  { pose proof (padded_string_length x w Hx ltac:(lia)) as H.
    unfold Py.len in H. lia. }
  rewrite <- (padded_string_value x w) at 2 by lia.
  rewrite <- (Z2Nat.id i) by lia.
  rewrite str_value_testbit by (apply Forall_rev; exact Hd).
  rewrite rev_involutive.
  replace (w - 1 - Z.of_nat (Z.to_nat i))
    with (Z.of_nat (Z.to_nat w - S (Z.to_nat i))) by lia.
  rewrite str_value_testbit by exact Hd.
  rewrite rev_nth by lia. rewrite Hl. f_equal. f_equal. lia.
Qed.






(** ** [reverse_bytes] *)

Lemma be_value_snoc (bs : list Z) (b : Z) :
  be_value (bs ++ [b]) = 256 * be_value bs + b.
Proof. unfold be_value. rewrite fold_left_app. reflexivity. Qed.

Lemma be_value_bounds (bs : list Z) :
  Forall is_byte bs -> 0 <= be_value bs < 2 ^ (8 * Z.of_nat (List.length bs)).
Proof.
  induction bs as [|b bs IH] using rev_ind; intros H.
  - unfold be_value. simpl. lia.
  - apply Forall_app in H. destruct H as [Hs Hb]. apply Forall_inv in Hb.
    unfold is_byte in Hb. specialize (IH Hs).
    rewrite be_value_snoc, length_app, Nat2Z.inj_add. simpl List.length.
    replace (8 * (Z.of_nat (List.length bs) + Z.of_nat 1))
      with (8 * Z.of_nat (List.length bs) + 8) by lia.
    rewrite Z.pow_add_r by lia. change (2 ^ 8) with 256. nia.
Qed.

(** Writing the big-endian value of bytes in little-endian order gives
    the bytes back, reversed. *)
Lemma to_bytes_little_be_value (bs : list Z) :
  Forall is_byte bs ->
  Py.to_bytes_little (List.length bs) (be_value bs) = rev bs.
Proof.
  induction bs as [|b bs IH] using rev_ind; intros H; [reflexivity|].
  apply Forall_app in H. destruct H as [Hs Hb]. apply Forall_inv in Hb.
  unfold is_byte in Hb.
  rewrite be_value_snoc, length_app, rev_app_distr, Nat.add_comm.
  cbn [List.length Nat.add rev app Py.to_bytes_little].
  replace ((256 * be_value bs + b) mod 256) with b
    by (symmetry; rewrite Z.add_comm, Z.mul_comm, Z_mod_plus_full;
        apply Z.mod_small; lia).
  replace ((256 * be_value bs + b) / 256) with (be_value bs)
    by (apply Z.div_unique with (r := b); lia).
  rewrite IH by exact Hs. reflexivity.
Qed.

Lemma to_bytes_little_nth (n : nat) :
  forall x k, (k < n)%nat ->
    nth k (Py.to_bytes_little n x) 0 = (x / 256 ^ Z.of_nat k) mod 256.
Proof.
  induction n as [|n IH]; intros x k Hk; [lia|].
  cbn [Py.to_bytes_little]. destruct k as [|k].
  - simpl. rewrite Z.div_1_r. reflexivity.
  - cbn [nth]. rewrite IH by lia.
    rewrite Nat2Z.inj_succ, Z.pow_succ_r by lia.
    rewrite Z.div_div by (try lia; apply Z.pow_pos_nonneg; lia).
    reflexivity.
Qed.






(** ** [group_for_oid] *)

Lemma startswith_iff (s prefix : Py.str) :
  Py.startswith s prefix = true <-> exists suffix, s = prefix ++ suffix.
Proof.
  revert s. induction prefix as [|p prefix IH]; intros s.
  - split; [intros _; exists s; reflexivity | reflexivity].
  - destruct s as [|c s]; simpl.
    + split; [discriminate | intros (suffix & E); discriminate E].
    + rewrite andb_true_iff, IH. unfold Py.chr_eqb. rewrite Ascii.eqb_eq.
      split.
      * intros [-> (suffix & ->)]. exists suffix. reflexivity.
      * intros (suffix & E). injection E as -> ->. split; eauto.
Qed.

Lemma oid_of_group_cases (g : Z) (item : Py.str) :
  oid_of_group g item <->
  (g = 0 /\ (item = Py.lit ".1.3.6.1.4.1.89.48.61.1.2." \/
             item = Py.lit "vlanTrunkModeList1to1024")) \/
  (g = 1 /\ (item = Py.lit ".1.3.6.1.4.1.89.48.61.1.3." \/
             item = Py.lit "vlanTrunkModeList1025to2048")) \/
  (g = 2 /\ (item = Py.lit ".1.3.6.1.4.1.89.48.61.1.4." \/
             item = Py.lit "vlanTrunkModeList2049to3072")) \/
  (g = 3 /\ (item = Py.lit ".1.3.6.1.4.1.89.48.61.1.5." \/
             item = Py.lit "vlanTrunkModeList3073to4094")).
Proof.
  unfold oid_of_group, GROUP_TO_OIDS. split.
  - intros (oid_list & Hin & Hitem). cbn [In] in Hin.
    destruct Hin as [E | [E | [E | [E | []]]]]; injection E as <- <-;
      cbn [In] in Hitem; destruct Hitem as [<- | [<- | []]]; tauto.
  - intros [[-> H] | [[-> H] | [[-> H] | [-> H]]]];
      eexists; (split; [cbn [In]; eauto 6|]);
      cbn [In]; destruct H as [-> | ->]; auto.
Qed.

Lemma group_for_oid_of_item (g : Z) (item suffix : Py.str) :
  oid_of_group g item -> group_for_oid (item ++ suffix) = Ok g.
Proof.
  intros Hitem. apply oid_of_group_cases in Hitem.
  destruct Hitem as [[-> H] | [[-> H] | [[-> H] | [-> H]]]];
    destruct H as [-> | ->]; vm_compute; reflexivity.
Qed.

(** X9: [group_for_oid] returns a group exactly for the strings that
    start with one of the two identifiers [GROUP_TO_OIDS] lists for that
    group, whatever follows the identifier. *)
Theorem group_for_oid_returns_iff (oid : Py.str) (g : Z) :
  group_for_oid oid = Ok g <->
  exists item suffix, oid_of_group g item /\ oid = item ++ suffix.
Proof.
  split.
  - unfold group_for_oid, GROUP_TO_OIDS. cbn [group_for_oid_loop existsb].
    repeat match goal with
           | |- context [Py.startswith oid ?p] =>
               let E := fresh "E" in
               destruct (Py.startswith oid p) eqn:E; cbn [orb]
           end; intros H; try discriminate H; injection H as <-;
      match goal with
      | E : Py.startswith oid ?p = true |- _ =>
          apply startswith_iff in E; destruct E as (suffix & E);
          exists p, suffix; split; [apply oid_of_group_cases; tauto | exact E]
      end.
  - intros (item & suffix & Hitem & ->). apply group_for_oid_of_item.
    exact Hitem.
Qed.

(** X10: [group_for_oid] raises [ValueError] exactly when the string
    starts with none of the eight identifiers of [GROUP_TO_OIDS]; it
    raises nothing else. *)
Theorem group_for_oid_raises_iff (oid : Py.str) :
  (group_for_oid oid = Raise ValueError <->
   forall g item, oid_of_group g item -> Py.startswith oid item = false) /\
  group_for_oid oid <> Raise OverflowError.
Proof.
  split.
  - split.
    + intros H g item Hitem.
      destruct (Py.startswith oid item) eqn:E; [|reflexivity].
      apply startswith_iff in E. destruct E as (suffix & E).
      assert (Hok : group_for_oid oid = Ok g)
        by (rewrite E; apply group_for_oid_of_item; exact Hitem).
      rewrite H in Hok. discriminate Hok.
    + intros H. unfold group_for_oid, GROUP_TO_OIDS.
      cbn [group_for_oid_loop existsb].
      repeat match goal with
             | |- context [Py.startswith oid ?p] =>
                 rewrite (H _ p) by (apply oid_of_group_cases; tauto)
             end.
      reflexivity.
  - unfold group_for_oid, GROUP_TO_OIDS. cbn [group_for_oid_loop].
    repeat match goal with
           | |- context [existsb ?f ?l] => destruct (existsb f l)
           end; discriminate.
Qed.

(** ** class VlanTrunkModeList: single calls *)

Lemma vlan_bit_eq (v : Z) :
  MIN_VLAN <= v <= MAX_VLAN ->
  vlan_bit v = Ok (2 ^ ((v - 1) mod VLAN_GROUP_SIZE)) /\
  0 <= (v - 1) mod VLAN_GROUP_SIZE < VLAN_GROUP_SIZE.
Proof.
  intros H. destruct (vlan_bit_spec v H) as (g & _ & _ & Hk & Eb).
  assert (E : (v - 1) mod VLAN_GROUP_SIZE = v - g * VLAN_GROUP_SIZE - 1).
  { symmetry. apply Z.mod_unique with (q := g); lia. }
  rewrite E. split; assumption.
Qed.

Lemma vlan_bit_raises (v : Z) :
  ~ (MIN_VLAN <= v <= MAX_VLAN) -> vlan_bit v = Raise ValueError.
Proof.
  intros H. unfold vlan_bit. rewrite validate_vlan_raises by exact H.
  reflexivity.
Qed.

Lemma vlan_in_group_iff (v g : Z) :
  vlan_in_group v g = true <-> 0 <= v - 1024 * g <= 1024.
Proof.
  unfold vlan_in_group, VLAN_GROUP_SIZE.
  rewrite andb_true_iff, Z.geb_le, Z.leb_le. tauto.
Qed.

Lemma valid_dec (v : Z) :
  {MIN_VLAN <= v <= MAX_VLAN} + {~ (MIN_VLAN <= v <= MAX_VLAN)}.
Proof.
  destruct (Z_le_dec MIN_VLAN v); [|right; lia].
  destruct (Z_le_dec v MAX_VLAN); [left; lia | right; lia].
Qed.

(** X11: [add_vlan] returns exactly when the id passes [vlan_in_group]
    for the store's group and lies in 1..4094; the group is kept and the
    mask gains bit [(v - 1) mod 1024].  In every other case it raises
    [ValueError]. *)
Theorem add_vlan_returns_iff (self : t) (v : Z) :
  (0 <= v - 1024 * _group self <= 1024 /\ 1 <= v <= 4094 ->
   add_vlan self v =
   Ok (mk (_group self) (Z.lor (_value self) (2 ^ ((v - 1) mod 1024))))) /\
  (~ (0 <= v - 1024 * _group self <= 1024 /\ 1 <= v <= 4094) ->
   add_vlan self v = Raise ValueError).
Proof.
  unfold add_vlan. split.
  - intros [Hg Hv]. apply vlan_in_group_iff in Hg. rewrite Hg.
    destruct (vlan_bit_eq v Hv) as [-> _]. reflexivity.
  - intros H. destruct (vlan_in_group v (_group self)) eqn:Hg; [|reflexivity].
    apply vlan_in_group_iff in Hg. rewrite vlan_bit_raises; [reflexivity|].
    unfold MIN_VLAN, MAX_VLAN. tauto.
Qed.

(** X12: adding the same VLAN again changes nothing: a second [add_vlan]
    of the id returns the store the first one returned. *)
Theorem add_vlan_idempotent (self self' : t) (v : Z) :
  add_vlan self v = Ok self' -> add_vlan self' v = Ok self'.
Proof.
  unfold add_vlan. destruct (vlan_in_group v (_group self)) eqn:Hg; [|discriminate].
  destruct (vlan_bit v) as [b|e] eqn:Eb; [|discriminate].
  intros E. injection E as <-. cbn [_group _value]. rewrite Hg.
  unfold bind. rewrite <- Z.lor_assoc, Z.lor_diag. reflexivity.
Qed.

Lemma add_vlan_idempotent_witness :
  add_vlan (mk 1 (2 ^ 1023)) 2048 = Ok (mk 1 (2 ^ 1023)).
Proof.
  apply (add_vlan_idempotent (__init__ 1) (mk 1 (2 ^ 1023)) 2048).
  vm_compute. reflexivity.
Defined.

Lemma has_vlan_eq (self : t) (v : Z) :
  MIN_VLAN <= v <= MAX_VLAN ->
  has_vlan self v = Ok (Z.testbit (_value self) ((v - 1) mod VLAN_GROUP_SIZE)).
Proof.
  intros H. unfold has_vlan. destruct (vlan_bit_eq v H) as [-> Hk].
  unfold bind. rewrite land_pow2 by lia.
  destruct (Z.testbit (_value self) ((v - 1) mod VLAN_GROUP_SIZE)).
  - replace (2 ^ ((v - 1) mod VLAN_GROUP_SIZE) =? 0) with false; [reflexivity|].
    symmetry. apply Z.eqb_neq.
    pose proof (Z.pow_pos_nonneg 2 ((v - 1) mod VLAN_GROUP_SIZE)). lia.
  - reflexivity.
Qed.

Lemma add_vlan_valid (self self' : t) (v : Z) :
  add_vlan self v = Ok self' ->
  MIN_VLAN <= v <= MAX_VLAN /\
  self' = mk (_group self)
             (Z.lor (_value self) (2 ^ ((v - 1) mod VLAN_GROUP_SIZE))).
Proof.
  unfold add_vlan. destruct (vlan_in_group v (_group self)); [|discriminate].
  destruct (valid_dec v) as [Hv|Hv].
  - destruct (vlan_bit_eq v Hv) as [-> _]. intros E. injection E as <-. auto.
  - rewrite vlan_bit_raises by exact Hv. discriminate.
Qed.

(** X13: once [add_vlan] has returned, [has_vlan] answers true for that
    id on the resulting store. *)
Theorem has_vlan_after_add_vlan (self self' : t) (v : Z) :
  add_vlan self v = Ok self' -> has_vlan self' v = Ok true.
Proof.
  intros E. apply add_vlan_valid in E. destruct E as [Hv ->].
  rewrite has_vlan_eq by exact Hv. cbn [_value].
  destruct (vlan_bit_eq v Hv) as [_ Hk].
  rewrite Z.lor_spec, Z.pow2_bits_eqb, Z.eqb_refl, orb_true_r by lia.
  reflexivity.
Qed.

Lemma has_vlan_after_add_vlan_witness :
  has_vlan (mk 0 (2 ^ 6)) 7 = Ok true.
Proof.
  apply (has_vlan_after_add_vlan (__init__ 0) (mk 0 (2 ^ 6)) 7).
  vm_compute. reflexivity.
Defined.

(** X14: when the id passes [vlan_in_group] for the store's group and
    [remove_vlan] returns, [has_vlan] answers false for that id on the
    resulting store. *)
Theorem has_vlan_after_remove_vlan (self self' : t) (v : Z) :
  0 <= v - 1024 * _group self <= 1024 ->
  remove_vlan self v = Ok self' -> has_vlan self' v = Ok false.
Proof.
  intros Hg. apply vlan_in_group_iff in Hg. unfold remove_vlan. rewrite Hg.
  destruct (valid_dec v) as [Hv|Hv];
    [|rewrite vlan_bit_raises by exact Hv; discriminate].
  destruct (vlan_bit_eq v Hv) as [-> Hk]. intros E. injection E as <-.
  rewrite has_vlan_eq by exact Hv. cbn [_value].
  rewrite Z.land_spec, Z.lnot_spec, Z.pow2_bits_eqb, Z.eqb_refl by lia.
  rewrite andb_false_r. reflexivity.
Qed.

Lemma has_vlan_after_remove_vlan_witness :
  has_vlan (mk 0 0) 7 = Ok false.
Proof.
  apply (has_vlan_after_remove_vlan (mk 0 (2 ^ 6)) (mk 0 0) 7).
  - simpl. lia.
  - vm_compute. reflexivity.
Defined.

(** X15: [remove_vlan] raises, and then [ValueError], exactly on the ids
    that pass [vlan_in_group] for the store's group but lie outside
    1..4094 (0 for group 0; 4095 and 4096 for group 3); an id that fails
    [vlan_in_group] is ignored without an error. *)
Theorem remove_vlan_raises_iff (self : t) (v : Z) :
  (remove_vlan self v = Raise ValueError <->
   0 <= v - 1024 * _group self <= 1024 /\ ~ (1 <= v <= 4094)) /\
  remove_vlan self v <> Raise OverflowError.
Proof.
  unfold remove_vlan.
  destruct (vlan_in_group v (_group self)) eqn:Hg.
  - apply vlan_in_group_iff in Hg. destruct (valid_dec v) as [Hv|Hv].
    + destruct (vlan_bit_eq v Hv) as [-> _]. unfold bind.
      split; [|discriminate]. split; [discriminate|].
      unfold MIN_VLAN, MAX_VLAN in Hv. tauto.
    + rewrite vlan_bit_raises by exact Hv. unfold bind.
      split; [|discriminate]. split; [|reflexivity].
      unfold MIN_VLAN, MAX_VLAN in Hv. tauto.
  - split; [|discriminate]. split; [discriminate|].
    intros [H _]. apply vlan_in_group_iff in H. congruence.
Qed.

(** X16: [has_vlan] of a store does not look at the store's group: ids
    1024 apart share a bit, so the store gives the same answer for
    both. *)
Theorem has_vlan_ignores_group (self : t) (v : Z) :
  1 <= v -> v + 1024 <= 4094 ->
  has_vlan self (v + 1024) = has_vlan self v.
Proof.
  intros H1 H2.
  rewrite !has_vlan_eq by (unfold MIN_VLAN, MAX_VLAN; lia).
  unfold VLAN_GROUP_SIZE.
  replace (v + 1024 - 1) with (v - 1 + 1 * 1024) by lia.
  rewrite Z_mod_plus_full. reflexivity.
Qed.

Lemma has_vlan_ignores_group_witness :
  has_vlan (mk 0 1) (1 + 1024) = has_vlan (mk 0 1) 1.
Proof. apply (has_vlan_ignores_group (mk 0 1) 1); lia. Defined.

(** X17: [remove_vlan] undoes an [add_vlan] of a VLAN the store did not
    have: the store is back as it was. *)
Theorem remove_vlan_undoes_add_vlan (self self' : t) (v : Z) :
  has_vlan self v = Ok false ->
  add_vlan self v = Ok self' ->
  remove_vlan self' v = Ok self.
Proof.
  intros Hhas Eadd.
  assert (Hg : vlan_in_group v (_group self) = true).
  { unfold add_vlan in Eadd.
    destruct (vlan_in_group v (_group self)); [reflexivity | discriminate]. }
  apply add_vlan_valid in Eadd. destruct Eadd as [Hv ->].
  rewrite has_vlan_eq in Hhas by exact Hv. injection Hhas as Hbit.
  destruct (vlan_bit_eq v Hv) as [Eb Hk].
  unfold remove_vlan. cbn [_group _value]. rewrite Hg, Eb. unfold bind.
  destruct self as [g m]. cbn [_group _value] in *. f_equal. f_equal.
  apply Z.bits_inj'. intros n Hn.
  rewrite Z.land_spec, Z.lor_spec, Z.lnot_spec, Z.pow2_bits_eqb by lia.
  destruct (Z.eqb_spec ((v - 1) mod VLAN_GROUP_SIZE) n) as [<- | Hne].
  - rewrite Hbit. reflexivity.
  - rewrite orb_false_r, andb_true_r. reflexivity.
Qed.

Lemma remove_vlan_undoes_add_vlan_witness :
  remove_vlan (mk 2 (Z.lor 1 (2 ^ 1))) 2050 = Ok (mk 2 1).
Proof.
  apply (remove_vlan_undoes_add_vlan (mk 2 1) (mk 2 (Z.lor 1 (2 ^ 1))) 2050);
    vm_compute; reflexivity.
Defined.

(** ** Export and import of strings *)

Lemma fits_0 : fits 0.
Proof.
  split; [lia | apply Z.pow_pos_nonneg; unfold VLAN_GROUP_SIZE; lia].
Qed.

Lemma call_keeps_group (self self' : t) (op : operation) :
  call self op = Ok self' -> _group self' = _group self.
Proof.
  destruct op as [v|s|v]; simpl; intros E.
  - apply add_vlan_inv in E. destruct E as (k & _ & ->). reflexivity.
  - unfold add_vlan_trunk_string in E.
    destruct (is_valid_vlan_trunk_string s); [|discriminate].
    destruct (Py.int _ 16) as [n|]; [|discriminate]. unfold bind in E.
    destruct (reverse_bits n VLAN_GROUP_SIZE); [|discriminate].
    injection E as <-. reflexivity.
  - apply remove_vlan_inv in E. destruct E as [-> | (b & ->)]; reflexivity.
Qed.

Lemma after_calls_fits (ops : list operation) :
  forall self, fits (_value self) ->
    fits (_value (fold_left after ops self)) /\
    _group (fold_left after ops self) = _group self.
Proof.
  induction ops as [|op ops IH]; intros self H; simpl; [auto|].
  unfold after at 2 4. destruct (call self op) as [self'|e] eqn:E.
  - destruct (IH self' (call_preserves_fits self self' op H E)) as [H1 H2].
    split; [exact H1|]. rewrite H2. apply (call_keeps_group self self' op E).
  - apply IH. exact H.
Qed.

(** X18: after any sequence of [add_vlan], [add_vlan_trunk_string] and
    [remove_vlan] calls on a new store, [get_vlan_trunk_string] returns
    (it never raises [OverflowError]) a string of the grammar, 383
    characters long, that the validator accepts and that decodes to the
    store's mask. *)
Theorem get_vlan_trunk_string_well_formed (group : Z) (ops : list operation) :
  let final := fold_left after ops (__init__ group) in
  exists w, get_vlan_trunk_string final = Ok w /\
            wire_grammar w /\ List.length w = 383%nat /\
            is_valid_vlan_trunk_string w = true /\
            decode_trunk_string w = Ok (_value final).
Proof.
  intros final.
  destruct (after_calls_fits ops (__init__ group) fits_0) as [Hf _].
  fold final in Hf. destruct final as [g m]. cbn [_value] in *.
  destruct (export_then_decode g m Hf) as (w & Ew & Hg & Hv & Ed).
  exists w. repeat split; try assumption. apply wire_grammar_length. exact Hg.
Qed.

Lemma div_pow2_mod_testbit (r a j : Z) :
  0 <= a -> 0 <= j < 8 ->
  Z.testbit ((r / 256 ^ a) mod 256) j = Z.testbit r (8 * a + j).
Proof.
  intros Ha Hj. change 256 with (2 ^ 8). rewrite <- Z.pow_mul_r by lia.
  rewrite Z.mod_pow2_bits_low by lia.
  rewrite Z.div_pow2_bits by lia. f_equal. lia.
Qed.

(** X19: the layout of the exported string.  For a mask that fits, the
    export is 128 byte tokens joined by single spaces, and bit [7 - j] of
    byte [k] is bit [8*k + j] of the mask, the bit of VLAN
    [group*1024 + 8*k + j + 1]: the first VLAN of the group is the top
    bit of the first byte. *)
Theorem get_vlan_trunk_string_layout (g m : Z) :
  0 <= m < 2 ^ 1024 ->
  exists bs,
    List.length bs = 128%nat /\ Forall is_byte bs /\
    get_vlan_trunk_string (mk g m) = Ok (Py.join [space] (map byte_token bs)) /\
    forall (k : nat) (j : Z), (k < 128)%nat -> 0 <= j < 8 ->
      Z.testbit (nth k bs 0) (7 - j) = Z.testbit m (8 * Z.of_nat k + j).
Proof.
  intros Hm.
  assert (Hw : 0 < VLAN_GROUP_SIZE) by (unfold VLAN_GROUP_SIZE; lia).
  destruct (reverse_bits_bounds m VLAN_GROUP_SIZE Hm Hw) as (r & Er & Hr).
  exists (rev (Py.to_bytes_little 128 r)).
  destruct (to_bytes_little_bytes 128 r) as [Hb Hl].
  split; [rewrite length_rev; exact Hl|].
  split; [apply Forall_rev; exact Hb|]. split.
  - unfold get_vlan_trunk_string. cbn [_value]. rewrite Er. unfold bind.
    unfold Py.to_bytes.
    replace (r <? 0) with false by (symmetry; apply Z.ltb_ge; lia).
    change (2 ^ (8 * BYTES_PER_GROUP)) with (2 ^ VLAN_GROUP_SIZE).
    replace (2 ^ VLAN_GROUP_SIZE <=? r) with false
      by (symmetry; apply Z.leb_gt; lia).
    change (Z.to_nat BYTES_PER_GROUP) with 128%nat.
    rewrite hex_list_eq. reflexivity.
  - intros k j Hk Hj. rewrite rev_nth by lia. rewrite Hl.
    rewrite to_bytes_little_nth by lia.
    rewrite div_pow2_mod_testbit by lia.
    rewrite reverse_bits_eq in Er by lia. injection Er as <-.
    rewrite reverse_bits_testbit by (unfold VLAN_GROUP_SIZE in *; lia).
    f_equal. unfold VLAN_GROUP_SIZE. lia.
Qed.

Lemma get_vlan_trunk_string_layout_witness :
  exists bs,
    List.length bs = 128%nat /\ Forall is_byte bs /\
    get_vlan_trunk_string (mk 0 5) = Ok (Py.join [space] (map byte_token bs)) /\
    forall (k : nat) (j : Z), (k < 128)%nat -> 0 <= j < 8 ->
      Z.testbit (nth k bs 0) (7 - j) = Z.testbit 5 (8 * Z.of_nat k + j).
Proof.
  apply (get_vlan_trunk_string_layout 0 5). split; [discriminate | reflexivity].
Defined.

Lemma upper_hex_round_trip (a : ascii) :
  upper_hex a = true ->
  0 <= digit_or0 a < 16 /\ Py.upper_char (Py.hex_digit (digit_or0 a)) = a.
Proof.
  destruct a as [[] [] [] [] [] [] [] []]; vm_compute; intros H;
    try discriminate H; repeat split; discriminate.
Qed.

Lemma token_is_byte_token (tok : Py.str) :
  token tok -> exists x, is_byte x /\ tok = byte_token x.
Proof.
  intros (a & b & -> & Ha & Hb).
  destruct (upper_hex_round_trip a Ha) as [Ra Ea].
  destruct (upper_hex_round_trip b Hb) as [Rb Eb].
  exists (16 * digit_or0 a + digit_or0 b). split; [unfold is_byte; lia|].
  unfold byte_token.
  replace ((16 * digit_or0 a + digit_or0 b) / 16) with (digit_or0 a)
    by (apply Z.div_unique with (r := digit_or0 b); lia).
  replace ((16 * digit_or0 a + digit_or0 b) mod 16) with (digit_or0 b)
    by (apply Z.mod_unique with (q := digit_or0 a); lia).
  rewrite Ea, Eb. reflexivity.
Qed.

Lemma tokens_are_byte_tokens (toks : list Py.str) :
  Forall token toks ->
  exists bs, Forall is_byte bs /\ toks = map byte_token bs.
Proof.
  induction 1 as [|tok toks Ht _ (bs & Hbs & ->)].
  - exists []. split; [constructor | reflexivity].
  - destruct (token_is_byte_token tok Ht) as (x & Hx & ->).
    exists (x :: bs). split; [constructor; assumption | reflexivity].
Qed.

(** X20: importing an accepted string into a new store and exporting the
    store gives the string back, without the newline when the accepted
    string ended in one. *)
Theorem export_after_import (g : Z) (s : Py.str) :
  is_valid_vlan_trunk_string s = true ->
  exists body self,
    wire_grammar body /\ (s = body \/ s = body ++ [newline]) /\
    add_vlan_trunk_string (__init__ g) s = Ok self /\
    get_vlan_trunk_string self = Ok body.
Proof.
  intros Hs. pose proof Hs as Hiff.
  apply is_valid_vlan_trunk_string_iff in Hiff.
  destruct Hiff as (body & Hg & Hbody).
  destruct (wire_grammar_digits body Hg) as (toks & Hl & Hf & -> & E1 & E2).
  destruct (tokens_are_byte_tokens toks Hf) as (bs & Hbs & ->).
  rewrite length_map in Hl.
  assert (Hw : 0 < VLAN_GROUP_SIZE) by (unfold VLAN_GROUP_SIZE; lia).
  assert (Hn : 0 <= be_value bs < 2 ^ VLAN_GROUP_SIZE).
  { pose proof (be_value_bounds bs Hbs) as H. rewrite Hl in H. exact H. }
  destruct (reverse_bits_bounds _ _ Hn Hw) as (d & Ed & Hd).
  pose proof (reverse_bits_involutive _ _ Hn Hw) as Hinv.
  rewrite Ed in Hinv. unfold bind in Hinv.
  assert (Edec : decode_trunk_string s = Ok d).
  { unfold decode_trunk_string. rewrite join_split.
    replace (filter not_space s) with (List.concat (map byte_token bs))
      by (destruct Hbody as [-> | ->]; [rewrite E1 | rewrite E2]; reflexivity).
    destruct (tokens_digits _ Hf) as [Hdig Hlen].
    rewrite int_ok; [|intros E0; rewrite E0, length_map, Hl in Hlen;
                       discriminate Hlen | exact Hdig].
    unfold bind. rewrite str_value_byte_tokens by exact Hbs. exact Ed. }
  exists (Py.join [space] (map byte_token bs)), (mk g d).
  split; [exact Hg|]. split; [exact Hbody|]. split.
  - rewrite (add_vlan_trunk_string_eq (__init__ g) s d Hs Edec).
    cbn [__init__ _group _value]. rewrite Z.lor_0_l. reflexivity.
  - unfold get_vlan_trunk_string. cbn [_value]. rewrite Hinv. unfold bind.
    unfold Py.to_bytes.
    replace (be_value bs <? 0) with false by (symmetry; apply Z.ltb_ge; lia).
    change (2 ^ (8 * BYTES_PER_GROUP)) with (2 ^ VLAN_GROUP_SIZE).
    replace (2 ^ VLAN_GROUP_SIZE <=? be_value bs) with false
      by (symmetry; apply Z.leb_gt; lia).
    change (Z.to_nat BYTES_PER_GROUP) with 128%nat. rewrite <- Hl.
    rewrite to_bytes_little_be_value by exact Hbs.
    rewrite rev_involutive, hex_list_eq. reflexivity.
Qed.

Lemma export_after_import_witness :
  exists body self,
    wire_grammar body /\
    (zero_string ++ [newline] = body \/
     zero_string ++ [newline] = body ++ [newline]) /\
    add_vlan_trunk_string (__init__ 2) (zero_string ++ [newline]) = Ok self /\
    get_vlan_trunk_string self = Ok body.
Proof.
  apply (export_after_import 2 (zero_string ++ [newline])).
  vm_compute. reflexivity.
Defined.

(** ** class SnmpVlanTrunk *)

Lemma group_cases (g : Z) : 0 <= g <= 3 -> g = 0 \/ g = 1 \/ g = 2 \/ g = 3.
Proof. lia. Qed.

Lemma trunk_get (masks : Z -> Z) (g : Z) :
  0 <= g <= 3 ->
  SnmpVlanTrunk._get_group_instance (trunk_with masks) g = Ok (g, mk g (masks g)).
Proof.
  intros H. destruct (group_cases g H) as [-> | [-> | [-> | ->]]]; reflexivity.
Qed.

Lemma trunk_get_none (masks : Z -> Z) (g : Z) :
  ~ (0 <= g <= 3) ->
  SnmpVlanTrunk._get_group_instance (trunk_with masks) g = Raise ValueError.
Proof.
  intros H. unfold SnmpVlanTrunk._get_group_instance, trunk_with, trunk_of.
  cbn [SnmpVlanTrunk._trunk_mode_lists Py.dict_get].
  destruct (Z.eqb_spec 0 g); [lia|]. destruct (Z.eqb_spec 1 g); [lia|].
  destruct (Z.eqb_spec 2 g); [lia|]. destruct (Z.eqb_spec 3 g); [lia|].
  reflexivity.
Qed.

Lemma trunk_mutated (masks : Z -> Z) (g m : Z) :
  0 <= g <= 3 ->
  SnmpVlanTrunk.mutated (trunk_with masks) g (mk g m) =
  trunk_with (set_mask masks g m).
Proof.
  intros H. destruct (group_cases g H) as [-> | [-> | [-> | ->]]]; reflexivity.
Qed.

Lemma set_mask_fits (masks : Z -> Z) (g m : Z) :
  (forall g', fits (masks g')) -> fits m ->
  forall g', fits (set_mask masks g m g').
Proof.
  intros Hf Hm g'. unfold set_mask. destruct (g' =? g); auto.
Qed.

Lemma trunk_init : SnmpVlanTrunk.__init__ = trunk_with (fun _ => 0).
Proof. reflexivity. Qed.

(** What a trunk method does, in terms of the call on the store of the
    group. *)
Lemma trunk_call_on_store (masks : Z -> Z) (g : Z) (op : operation) :
  0 <= g <= 3 -> (forall g', fits (masks g')) ->
  match call (mk g (masks g)) op with
  | Ok instance =>
      exists m, instance = mk g m /\ fits m /\
                SnmpVlanTrunk.mutated (trunk_with masks) g instance =
                trunk_with (set_mask masks g m)
  | Raise _ => True
  end.
Proof.
  intros Hg Hf. destruct (call (mk g (masks g)) op) as [instance|e] eqn:E;
    [|exact I].
  pose proof (call_preserves_fits (mk g (masks g)) _ _ (Hf g) E) as Hfit.
  pose proof (call_keeps_group (mk g (masks g)) _ _ E) as Hgrp.
  destruct instance as [g' m]. cbn [_group _value] in *. subst g'.
  exists m. split; [reflexivity|]. split; [exact Hfit|].
  apply trunk_mutated. exact Hg.
Qed.

Lemma trunk_add_vlan_eq (masks : Z -> Z) (v : Z) :
  SnmpVlanTrunk.add_vlan (trunk_with masks) v =
  (g <- group_for_vlan v ;;
   instance <- add_vlan (mk g (masks g)) v ;;
   Ok (SnmpVlanTrunk.mutated (trunk_with masks) g instance)).
Proof.
  unfold SnmpVlanTrunk.add_vlan, SnmpVlanTrunk._get_group_instance_from_vlan.
  destruct (group_for_vlan v) as [g|e] eqn:E; [|reflexivity].
  apply group_for_vlan_inv in E. destruct E as (_ & Hg & _).
  unfold bind at 2 4. rewrite trunk_get by exact Hg. reflexivity.
Qed.

Lemma trunk_remove_vlan_eq (masks : Z -> Z) (v : Z) :
  SnmpVlanTrunk.remove_vlan (trunk_with masks) v =
  (g <- group_for_vlan v ;;
   instance <- remove_vlan (mk g (masks g)) v ;;
   Ok (SnmpVlanTrunk.mutated (trunk_with masks) g instance)).
Proof.
  unfold SnmpVlanTrunk.remove_vlan, SnmpVlanTrunk._get_group_instance_from_vlan.
  destruct (group_for_vlan v) as [g|e] eqn:E; [|reflexivity].
  apply group_for_vlan_inv in E. destruct E as (_ & Hg & _).
  unfold bind at 2 4. rewrite trunk_get by exact Hg. reflexivity.
Qed.

Lemma trunk_has_vlan_eq (masks : Z -> Z) (v : Z) :
  SnmpVlanTrunk.has_vlan (trunk_with masks) v =
  (g <- group_for_vlan v ;; has_vlan (mk g (masks g)) v).
Proof.
  unfold SnmpVlanTrunk.has_vlan, SnmpVlanTrunk._get_group_instance_from_vlan.
  destruct (group_for_vlan v) as [g|e] eqn:E; [|reflexivity].
  apply group_for_vlan_inv in E. destruct E as (_ & Hg & _).
  unfold bind at 2 3. rewrite trunk_get by exact Hg. reflexivity.
Qed.

Lemma trunk_call_preserves (masks : Z -> Z) (op : trunk_operation)
    (self' : SnmpVlanTrunk.t) :
  (forall g, fits (masks g)) ->
  trunk_call (trunk_with masks) op = Ok self' ->
  exists masks', self' = trunk_with masks' /\ forall g, fits (masks' g).
Proof.
  intros Hf. destruct op as [v|s g|v]; cbn [trunk_call].
  - rewrite trunk_add_vlan_eq.
    destruct (group_for_vlan v) as [g|e] eqn:E; [|discriminate].
    apply group_for_vlan_inv in E. destruct E as (_ & Hg & _). unfold bind.
    pose proof (trunk_call_on_store masks g (AddVlan v) Hg Hf) as H.
    cbn [call] in H. destruct (add_vlan (mk g (masks g)) v); [|discriminate].
    destruct H as (m & -> & Hm & Em). intros E. injection E as <-.
    rewrite Em. eexists. split; [reflexivity|]. apply set_mask_fits; assumption.
  - unfold SnmpVlanTrunk.add_vlan_trunk_string.
    destruct (Z_le_dec 0 g) as [H0|H0];
      [destruct (Z_le_dec g 3) as [H3|H3]|];
      try (rewrite trunk_get_none by lia; discriminate).
    rewrite trunk_get by lia. unfold bind. cbn [fst snd].
    pose proof (trunk_call_on_store masks g (AddVlanTrunkString s)
                  ltac:(lia) Hf) as H.
    cbn [call] in H.
    destruct (add_vlan_trunk_string (mk g (masks g)) s); [|discriminate].
    destruct H as (m & -> & Hm & Em). intros E. injection E as <-.
    rewrite Em. eexists. split; [reflexivity|]. apply set_mask_fits; assumption.
  - rewrite trunk_remove_vlan_eq.
    destruct (group_for_vlan v) as [g|e] eqn:E; [|discriminate].
    apply group_for_vlan_inv in E. destruct E as (_ & Hg & _). unfold bind.
    pose proof (trunk_call_on_store masks g (RemoveVlan v) Hg Hf) as H.
    cbn [call] in H. destruct (remove_vlan (mk g (masks g)) v); [|discriminate].
    destruct H as (m & -> & Hm & Em). intros E. injection E as <-.
    rewrite Em. eexists. split; [reflexivity|]. apply set_mask_fits; assumption.
Qed.

Lemma trunk_after_calls_masks (ops : list trunk_operation) :
  exists masks, trunk_after_calls ops = trunk_with masks /\
                forall g, fits (masks g).
Proof.
  unfold trunk_after_calls. rewrite trunk_init.
  assert (H0 : forall g : Z, fits ((fun _ : Z => 0) g)) by (intros; apply fits_0).
  revert H0. generalize (fun _ : Z => 0) as masks.
  induction ops as [|op ops IH]; intros masks Hf; cbn [fold_left]; [eauto|].
  unfold trunk_after at 2.
  destruct (trunk_call (trunk_with masks) op) as [self'|e] eqn:E.
  - destruct (trunk_call_preserves masks op self' Hf E) as (masks' & -> & Hf').
    apply IH. exact Hf'.
  - apply IH. exact Hf.
Qed.

(** X21: whatever sequence of [add_vlan], [add_vlan_trunk_string] and
    [remove_vlan] calls is made on a new [SnmpVlanTrunk], returning or
    raising, it still holds exactly the four stores, under the keys 0, 1,
    2, 3 in that order, each with its key as group id and a mask below
    [2^1024]. *)
Theorem trunk_keeps_four_stores (ops : list trunk_operation) :
  exists m0 m1 m2 m3,
    SnmpVlanTrunk._trunk_mode_lists (trunk_after_calls ops) =
    [(0, mk 0 m0); (1, mk 1 m1); (2, mk 2 m2); (3, mk 3 m3)] /\
    0 <= m0 < 2 ^ 1024 /\ 0 <= m1 < 2 ^ 1024 /\
    0 <= m2 < 2 ^ 1024 /\ 0 <= m3 < 2 ^ 1024.
Proof.
  destruct (trunk_after_calls_masks ops) as (masks & -> & Hf).
  exists (masks 0), (masks 1), (masks 2), (masks 3).
  split; [reflexivity|]. repeat split; apply Hf.
Qed.

(** X22: error behaviour of the trunk.  An id outside 1..4094 makes
    [add_vlan], [has_vlan] and [remove_vlan] raise [ValueError]; a group
    outside 0..3 makes [add_vlan_trunk_string] and
    [get_vlan_trunk_string] raise [ValueError]; so does a string the
    validator rejects.  With a group in 0..3, [get_vlan_trunk_string]
    returns. *)
Theorem trunk_errors (ops : list trunk_operation) :
  let self := trunk_after_calls ops in
  (forall v, ~ (1 <= v <= 4094) ->
     SnmpVlanTrunk.add_vlan self v = Raise ValueError /\
     SnmpVlanTrunk.has_vlan self v = Raise ValueError /\
     SnmpVlanTrunk.remove_vlan self v = Raise ValueError) /\
  (forall s g, ~ (0 <= g <= 3) ->
     SnmpVlanTrunk.add_vlan_trunk_string self s g = Raise ValueError /\
     SnmpVlanTrunk.get_vlan_trunk_string self g = Raise ValueError) /\
  (forall s g, is_valid_vlan_trunk_string s = false ->
     SnmpVlanTrunk.add_vlan_trunk_string self s g = Raise ValueError) /\
  (forall g, 0 <= g <= 3 ->
     exists w, SnmpVlanTrunk.get_vlan_trunk_string self g = Ok w /\
               wire_grammar w).
Proof.
  intros self. subst self.
  destruct (trunk_after_calls_masks ops) as (masks & -> & Hf).
  split; [|split; [|split]].
  - intros v Hv.
    unfold SnmpVlanTrunk.add_vlan, SnmpVlanTrunk.has_vlan,
      SnmpVlanTrunk.remove_vlan, SnmpVlanTrunk._get_group_instance_from_vlan,
      group_for_vlan.
    rewrite validate_vlan_raises by exact Hv. repeat split.
  - intros s g Hg.
    unfold SnmpVlanTrunk.add_vlan_trunk_string,
      SnmpVlanTrunk.get_vlan_trunk_string.
    rewrite trunk_get_none by exact Hg. split; reflexivity.
  - intros s g Hs. unfold SnmpVlanTrunk.add_vlan_trunk_string.
    destruct (SnmpVlanTrunk._get_group_instance (trunk_with masks) g)
      as [found|[]] eqn:E; [|reflexivity|].
    + unfold bind. unfold add_vlan_trunk_string. rewrite Hs. reflexivity.
    + unfold SnmpVlanTrunk._get_group_instance in E.
      destruct (Py.dict_get _ g); discriminate E.
  - intros g Hg. unfold SnmpVlanTrunk.get_vlan_trunk_string.
    rewrite trunk_get by exact Hg. unfold bind. cbn [snd].
    destruct (export_then_decode g (masks g) (Hf g)) as (w & Ew & Hw & _).
    exists w. split; assumption.
Qed.

Lemma bit_index_eq (v g : Z) :
  group_for_vlan v = Ok g ->
  MIN_VLAN <= v <= MAX_VLAN /\ 0 <= g <= 3 /\
  0 <= v - g * VLAN_GROUP_SIZE - 1 < VLAN_GROUP_SIZE /\
  (v - 1) mod VLAN_GROUP_SIZE = v - g * VLAN_GROUP_SIZE - 1.
Proof.
  intros E. destruct (group_for_vlan_inv v g E) as (Hv & Hg & Hr).
  split; [exact Hv|]. split; [exact Hg|]. split; [lia|].
  symmetry. apply Z.mod_unique with (q := g); lia.
Qed.

Lemma trunk_has_vlan_value (masks : Z -> Z) (v g : Z) :
  group_for_vlan v = Ok g ->
  SnmpVlanTrunk.has_vlan (trunk_with masks) v =
  Ok (Z.testbit (masks g) (v - g * VLAN_GROUP_SIZE - 1)).
Proof.
  intros E. rewrite trunk_has_vlan_eq, E. unfold bind.
  destruct (bit_index_eq v g E) as (Hv & _ & _ & <-).
  apply has_vlan_eq. exact Hv.
Qed.

Lemma same_group_same_bit (v v' g : Z) :
  group_for_vlan v = Ok g -> group_for_vlan v' = Ok g ->
  (v - g * VLAN_GROUP_SIZE - 1 =? v' - g * VLAN_GROUP_SIZE - 1) = (v' =? v).
Proof.
  intros _ _.
  destruct (Z.eqb_spec v' v) as [-> | Hne]; [apply Z.eqb_refl|].
  apply Z.eqb_neq. lia.
Qed.

(** X23: on a trunk reached by any calls, [add_vlan] of an id in 1..4094
    returns, and afterwards [has_vlan] answers true for that id and as
    before for every other id of 1..4094. *)
Theorem trunk_add_vlan_sets_one (ops : list trunk_operation) (v : Z) :
  1 <= v <= 4094 ->
  exists self',
    SnmpVlanTrunk.add_vlan (trunk_after_calls ops) v = Ok self' /\
    forall v', 1 <= v' <= 4094 ->
      exists b, SnmpVlanTrunk.has_vlan (trunk_after_calls ops) v' = Ok b /\
                SnmpVlanTrunk.has_vlan self' v' = Ok ((v' =? v) || b).
Proof.
  intros Hv. destruct (trunk_after_calls_masks ops) as (masks & -> & Hf).
  destruct (group_for_vlan_spec v Hv) as (g & Eg & _).
  destruct (bit_index_eq v g Eg) as (_ & Hg & Hk & _).
  destruct (add_vlan_canonical g (masks g) v Eg) as [_ Ea].
  eexists. split.
  - rewrite trunk_add_vlan_eq, Eg. unfold bind. rewrite Ea.
    rewrite trunk_mutated by exact Hg. reflexivity.
  - intros v' Hv'. destruct (group_for_vlan_spec v' Hv') as (g' & Eg' & _).
    destruct (bit_index_eq v' g' Eg') as (_ & Hg' & Hk' & _).
    eexists. split; [apply trunk_has_vlan_value; exact Eg'|].
    rewrite (trunk_has_vlan_value _ v' g' Eg'). f_equal. unfold set_mask.
    destruct (Z.eqb_spec g' g) as [-> | Hne].
    + rewrite Z.lor_spec, Z.pow2_bits_eqb by lia.
      rewrite (same_group_same_bit v v' g Eg Eg'). apply orb_comm.
    + replace (v' =? v) with false; [reflexivity|].
      symmetry. apply Z.eqb_neq. intros ->. rewrite Eg in Eg'. congruence.
Qed.

Lemma trunk_add_vlan_sets_one_witness :
  exists self',
    SnmpVlanTrunk.add_vlan (trunk_after_calls [TrunkAddVlan 7]) 1024 = Ok self' /\
    forall v', 1 <= v' <= 4094 ->
      exists b, SnmpVlanTrunk.has_vlan (trunk_after_calls [TrunkAddVlan 7]) v' = Ok b /\
                SnmpVlanTrunk.has_vlan self' v' = Ok ((v' =? 1024) || b).
Proof. apply (trunk_add_vlan_sets_one [TrunkAddVlan 7] 1024). lia. Defined.

(** X24: on a trunk reached by any calls, [remove_vlan] of an id in
    1..4094 returns, and afterwards [has_vlan] answers false for that id
    and as before for every other id of 1..4094. *)
Theorem trunk_remove_vlan_clears_one (ops : list trunk_operation) (v : Z) :
  1 <= v <= 4094 ->
  exists self',
    SnmpVlanTrunk.remove_vlan (trunk_after_calls ops) v = Ok self' /\
    forall v', 1 <= v' <= 4094 ->
      exists b, SnmpVlanTrunk.has_vlan (trunk_after_calls ops) v' = Ok b /\
                SnmpVlanTrunk.has_vlan self' v' = Ok (negb (v' =? v) && b).
Proof.
  intros Hv. destruct (trunk_after_calls_masks ops) as (masks & -> & Hf).
  destruct (group_for_vlan_spec v Hv) as (g & Eg & _ & Hr).
  destruct (bit_index_eq v g Eg) as (_ & Hg & Hk & Hmod).
  destruct (vlan_bit_eq v Hv) as [Eb _]. rewrite Hmod in Eb.
  eexists. split.
  - rewrite trunk_remove_vlan_eq, Eg. unfold bind, remove_vlan.
    cbn [_group _value].
    replace (vlan_in_group v g) with true
      by (symmetry; apply vlan_in_group_iff; unfold VLAN_GROUP_SIZE in *; lia).
    rewrite Eb. unfold bind. rewrite trunk_mutated by exact Hg. reflexivity.
  - intros v' Hv'. destruct (group_for_vlan_spec v' Hv') as (g' & Eg' & _).
    destruct (bit_index_eq v' g' Eg') as (_ & Hg' & Hk' & _).
    eexists. split; [apply trunk_has_vlan_value; exact Eg'|].
    rewrite (trunk_has_vlan_value _ v' g' Eg'). f_equal. unfold set_mask.
    destruct (Z.eqb_spec g' g) as [-> | Hne].
    + rewrite Z.land_spec, Z.lnot_spec, Z.pow2_bits_eqb by lia.
      rewrite (same_group_same_bit v v' g Eg Eg'). apply andb_comm.
    + replace (v' =? v) with false; [reflexivity|].
      symmetry. apply Z.eqb_neq. intros ->. rewrite Eg in Eg'. congruence.
Qed.

Lemma trunk_remove_vlan_clears_one_witness :
  exists self',
    SnmpVlanTrunk.remove_vlan (trunk_after_calls [TrunkAddVlan 7]) 7 = Ok self' /\
    forall v', 1 <= v' <= 4094 ->
      exists b, SnmpVlanTrunk.has_vlan (trunk_after_calls [TrunkAddVlan 7]) v' = Ok b /\
                SnmpVlanTrunk.has_vlan self' v' = Ok (negb (v' =? 7) && b).
Proof. apply (trunk_remove_vlan_clears_one [TrunkAddVlan 7] 7). lia. Defined.

(** ** Listing and copying a trunk *)

Lemma trunk_vlans_eq (masks : Z -> Z) (l0 l1 l2 l3 : list Z) :
  vlans (mk 0 (masks 0)) = Ok l0 -> vlans (mk 1 (masks 1)) = Ok l1 ->
  vlans (mk 2 (masks 2)) = Ok l2 -> vlans (mk 3 (masks 3)) = Ok l3 ->
  SnmpVlanTrunk.vlans (trunk_with masks) =
  Ok [(0, l0); (1, l1); (2, l2); (3, l3)].
Proof.
  intros E0 E1 E2 E3. unfold SnmpVlanTrunk.vlans, trunk_with, trunk_of.
  cbn [SnmpVlanTrunk._trunk_mode_lists for_each fst snd].
  rewrite E0. unfold bind at 1. rewrite E1. unfold bind at 1.
  rewrite E2. unfold bind at 1. rewrite E3. reflexivity.
Qed.

Lemma in_group_range_iff (g v : Z) :
  in_group_range g v = true <->
  VLAN_GROUP_SIZE * g < v <= VLAN_GROUP_SIZE * (g + 1).
Proof.
  unfold in_group_range. rewrite andb_true_iff, Z.ltb_lt, Z.leb_le. tauto.
Qed.

Lemma for_each_trunk_add_vlan (l : list Z) :
  Forall (fun v => MIN_VLAN <= v <= MAX_VLAN) l ->
  forall masks, (forall g, fits (masks g)) ->
  exists masks',
    for_each SnmpVlanTrunk.add_vlan l (trunk_with masks) = Ok (trunk_with masks') /\
    (forall g, fits (masks' g)) /\
    forall g i, Z.testbit (masks' g) i = true <->
                Z.testbit (masks g) i = true \/
                (0 <= i < VLAN_GROUP_SIZE /\ In (vlan_at g i) l).
Proof.
  induction 1 as [|v l Hv _ IH]; intros masks Hf.
  - exists masks. split; [reflexivity|]. split; [exact Hf|].
    intros g i. cbn [In]. tauto.
  - destruct (group_for_vlan_spec v Hv) as (gv & Eg & _ & Hr).
    destruct (bit_index_eq v gv Eg) as (_ & Hg & Hk & _).
    destruct (add_vlan_canonical gv (masks gv) v Eg) as [_ Ea].
    set (k := v - gv * VLAN_GROUP_SIZE - 1) in *.
    assert (Hf1 : forall g, fits (set_mask masks gv (Z.lor (masks gv) (2 ^ k)) g)).
    { apply set_mask_fits; [exact Hf|].
      apply lor_fits; [unfold VLAN_GROUP_SIZE; lia | apply Hf |].
      apply pow2_fits. exact Hk. }
    destruct (IH _ Hf1) as (masks' & E & Hf' & Hbits).
    exists masks'. split; [|split; [exact Hf'|]].
    + cbn [for_each]. rewrite trunk_add_vlan_eq, Eg. unfold bind at 2 3.
      rewrite Ea. rewrite trunk_mutated by exact Hg. unfold bind. exact E.
    + intros g i. rewrite Hbits. unfold set_mask. cbn [In].
      destruct (Z.eqb_spec g gv) as [-> | Hne].
      * rewrite Z.lor_spec, Z.pow2_bits_eqb, orb_true_iff, Z.eqb_eq by lia.
        unfold vlan_at. subst k. split.
        -- intros [[H|H]|[Hi H]]; [left; exact H | right | right; tauto].
           split; [lia | left; lia].
        -- intros [H|[Hi [H|H]]]; [left; left; exact H | | right; tauto].
           left. right. lia.
      * unfold vlan_at. split.
        -- intros [H|[Hi H]]; [left; exact H | right; tauto].
        -- intros [H|[Hi [H|H]]]; [left; exact H | | right; tauto].
           exfalso. apply Hne. unfold VLAN_GROUP_SIZE in *. lia.
Qed.

Lemma valid_in_range_group (g v : Z) :
  MIN_VLAN <= v <= MAX_VLAN -> in_group_range g v = true ->
  group_for_vlan v = Ok g.
Proof.
  intros Hv Hr. apply in_group_range_iff in Hr.
  destruct (group_for_vlan_spec v Hv) as (g' & E & _ & Hr').
  rewrite E. f_equal. unfold VLAN_GROUP_SIZE in *. lia.
Qed.

Lemma vlans_of_added (g : Z) (l : list Z) (m : Z) :
  NoDup l -> Forall (fun v => MIN_VLAN <= v <= MAX_VLAN) l -> fits m ->
  (forall i, Z.testbit m i = true <->
             0 <= i < VLAN_GROUP_SIZE /\ In (vlan_at g i) l) ->
  vlans (mk g m) = Ok (Py.sorted (filter (in_group_range g) l)).
Proof.
  intros Hnd Hl Hm Hbits. apply vlans_of_mask.
  - apply NoDup_filter. exact Hnd.
  - apply Forall_forall. intros v Hv. apply filter_In in Hv.
    destruct Hv as [Hin Hr]. rewrite Forall_forall in Hl.
    apply valid_in_range_group; auto.
  - exact Hm.
  - intros i. rewrite Hbits, filter_In, in_group_range_iff. unfold vlan_at.
    split.
    + intros [Hi Hin]. split; [exact Hin | lia].
    + intros [Hin Hi]. split; [lia | exact Hin].
Qed.

(** X25: adding a duplicate-free list of ids of 1..4094 to a new trunk
    never raises, and [vlans] of the result maps every group 0..3 to the
    ids of the list that lie in [group*1024 + 1 .. group*1024 + 1024], in
    ascending order. *)
Theorem trunk_vlans_after_adding (l : list Z) :
  NoDup l -> Forall (fun v => 1 <= v <= 4094) l ->
  exists self,
    for_each SnmpVlanTrunk.add_vlan l SnmpVlanTrunk.__init__ = Ok self /\
    SnmpVlanTrunk.vlans self =
    Ok [(0, Py.sorted (filter (in_group_range 0) l));
        (1, Py.sorted (filter (in_group_range 1) l));
        (2, Py.sorted (filter (in_group_range 2) l));
        (3, Py.sorted (filter (in_group_range 3) l))].
Proof.
  intros Hnd Hl. rewrite trunk_init.
  destruct (for_each_trunk_add_vlan l Hl (fun _ => 0) (fun _ => fits_0))
    as (masks & E & Hf & Hbits).
  exists (trunk_with masks). split; [exact E|].
  apply trunk_vlans_eq; apply vlans_of_added; try assumption; try apply Hf;
    intros i; rewrite Hbits, Z.bits_0;
    (split; [intros [H|H]; [discriminate H | exact H] | intros H; right; exact H]).
Qed.

Lemma trunk_vlans_after_adding_witness :
  exists self,
    for_each SnmpVlanTrunk.add_vlan [3000; 1; 1024; 1025] SnmpVlanTrunk.__init__
    = Ok self /\
    SnmpVlanTrunk.vlans self =
    Ok [(0, Py.sorted (filter (in_group_range 0) [3000; 1; 1024; 1025]));
        (1, Py.sorted (filter (in_group_range 1) [3000; 1; 1024; 1025]));
        (2, Py.sorted (filter (in_group_range 2) [3000; 1; 1024; 1025]));
        (3, Py.sorted (filter (in_group_range 3) [3000; 1; 1024; 1025]))].
Proof.
  apply (trunk_vlans_after_adding [3000; 1; 1024; 1025]).
  - repeat constructor; simpl; intuition discriminate.
  - repeat constructor; lia.
Defined.

Lemma trunk_import (masks : Z -> Z) (g : Z) (w : Py.str) (d : Z) :
  0 <= g <= 3 -> is_valid_vlan_trunk_string w = true ->
  decode_trunk_string w = Ok d ->
  SnmpVlanTrunk.add_vlan_trunk_string (trunk_with masks) w g =
  Ok (trunk_with (set_mask masks g (Z.lor (masks g) d))).
Proof.
  intros Hg Hw Ed. unfold SnmpVlanTrunk.add_vlan_trunk_string.
  rewrite trunk_get by exact Hg. unfold bind at 1. cbn [fst snd].
  rewrite (add_vlan_trunk_string_eq (mk g (masks g)) w d Hw Ed).
  unfold bind. cbn [_group _value]. rewrite trunk_mutated by exact Hg.
  reflexivity.
Qed.

(** X26: a trunk can be copied through its strings.  On a trunk reached
    by any calls, [vlan_trunk_strings] returns one string per group, keyed
    0, 1, 2, 3, and giving each of them with its key to
    [add_vlan_trunk_string] of a new trunk rebuilds the same trunk. *)
Theorem trunk_copy_through_strings (ops : list trunk_operation) :
  exists w0 w1 w2 w3,
    SnmpVlanTrunk.vlan_trunk_strings (trunk_after_calls ops) =
    Ok [(0, w0); (1, w1); (2, w2); (3, w3)] /\
    for_each
      (fun copy (item : Z * Py.str) =>
         SnmpVlanTrunk.add_vlan_trunk_string copy (snd item) (fst item))
      [(0, w0); (1, w1); (2, w2); (3, w3)] SnmpVlanTrunk.__init__
    = Ok (trunk_after_calls ops).
Proof.
  destruct (trunk_after_calls_masks ops) as (masks & -> & Hf).
  destruct (export_then_decode 0 (masks 0) (Hf 0)) as (w0 & E0 & _ & V0 & D0).
  destruct (export_then_decode 1 (masks 1) (Hf 1)) as (w1 & E1 & _ & V1 & D1).
  destruct (export_then_decode 2 (masks 2) (Hf 2)) as (w2 & E2 & _ & V2 & D2).
  destruct (export_then_decode 3 (masks 3) (Hf 3)) as (w3 & E3 & _ & V3 & D3).
  exists w0, w1, w2, w3. split.
  - unfold SnmpVlanTrunk.vlan_trunk_strings, trunk_with, trunk_of.
    cbn [SnmpVlanTrunk._trunk_mode_lists for_each fst snd].
    rewrite E0. unfold bind at 1. rewrite E1. unfold bind at 1.
    rewrite E2. unfold bind at 1. rewrite E3. reflexivity.
  - rewrite trunk_init. cbn [for_each fst snd].
    rewrite (trunk_import _ 0 w0 _ ltac:(lia) V0 D0). unfold bind at 1.
    rewrite (trunk_import _ 1 w1 _ ltac:(lia) V1 D1). unfold bind at 1.
    rewrite (trunk_import _ 2 w2 _ ltac:(lia) V2 D2). unfold bind at 1.
    rewrite (trunk_import _ 3 w3 _ ltac:(lia) V3 D3). unfold bind at 1.
    reflexivity.
Qed.

Lemma group_for_oid_range (oid : Py.str) (g : Z) :
  group_for_oid oid = Ok g -> 0 <= g <= 3.
Proof.
  unfold group_for_oid, GROUP_TO_OIDS. cbn [group_for_oid_loop].
  repeat match goal with
         | |- context [existsb ?f ?l] => destruct (existsb f l)
         end; intros E; try discriminate E; injection E as <-; lia.
Qed.

(** X27: the group [group_for_oid] returns is always one the trunk knows:
    with it, [add_vlan_trunk_string] of an accepted string returns, on a
    trunk reached by any calls, and [get_vlan_trunk_string] of that group
    then returns a string of the grammar. *)
Theorem group_for_oid_feeds_trunk (ops : list trunk_operation)
    (oid s : Py.str) (g : Z) :
  group_for_oid oid = Ok g ->
  is_valid_vlan_trunk_string s = true ->
  exists self' w,
    SnmpVlanTrunk.add_vlan_trunk_string (trunk_after_calls ops) s g = Ok self' /\
    SnmpVlanTrunk.get_vlan_trunk_string self' g = Ok w /\ wire_grammar w.
Proof.
  intros Eg Hs. apply group_for_oid_range in Eg.
  destruct (trunk_after_calls_masks ops) as (masks & -> & Hf).
  destruct (decode_trunk_string_ok s Hs) as (d & Ed & Hd).
  rewrite (trunk_import masks g s d Eg Hs Ed).
  set (masks' := set_mask masks g (Z.lor (masks g) d)).
  assert (Hf' : forall g', fits (masks' g')).
  { apply set_mask_fits; [exact Hf|].
    apply lor_fits; [unfold VLAN_GROUP_SIZE; lia | apply Hf | exact Hd]. }
  destruct (export_then_decode g (masks' g) (Hf' g)) as (w & Ew & Hw & _).
  exists (trunk_with masks'), w. split; [reflexivity|]. split; [|exact Hw].
  unfold SnmpVlanTrunk.get_vlan_trunk_string.
  rewrite trunk_get by exact Eg. unfold bind. cbn [snd]. exact Ew.
Qed.

Lemma group_for_oid_feeds_trunk_witness :
  exists self' w,
    SnmpVlanTrunk.add_vlan_trunk_string (trunk_after_calls [TrunkAddVlan 2049])
      test_string 2 = Ok self' /\
    SnmpVlanTrunk.get_vlan_trunk_string self' 2 = Ok w /\ wire_grammar w.
Proof.
  apply (group_for_oid_feeds_trunk [TrunkAddVlan 2049]
           (Py.lit ".1.3.6.1.4.1.89.48.61.1.4.17") test_string 2);
    vm_compute; reflexivity.
Defined.

Lemma listed_iff_bit (m g v : Z) :
  0 <= v - g * VLAN_GROUP_SIZE - 1 < VLAN_GROUP_SIZE ->
  In v (map (vlan_at g) (filter (Z.testbit m) (Py.range VLAN_GROUP_SIZE))) <->
  Z.testbit m (v - g * VLAN_GROUP_SIZE - 1) = true.
Proof.
  intros Hk. rewrite in_map_iff. unfold vlan_at. split.
  - intros (i & Ei & Hi). apply filter_In in Hi. destruct Hi as [_ Hb].
    replace (v - g * VLAN_GROUP_SIZE - 1) with i by lia. exact Hb.
  - intros Hb. exists (v - g * VLAN_GROUP_SIZE - 1). split; [lia|].
    apply filter_In. split; [apply in_range; exact Hk | exact Hb].
Qed.

(** X28: [has_vlan] and [vlans] of a trunk agree.  On a trunk reached by
    any calls and for an id of 1..4094, [has_vlan] answers true exactly
    when [vlans] lists the id under the id's group. *)
Theorem trunk_has_vlan_iff_listed (ops : list trunk_operation) (v : Z) :
  1 <= v <= 4094 ->
  exists b listing g l,
    SnmpVlanTrunk.has_vlan (trunk_after_calls ops) v = Ok b /\
    SnmpVlanTrunk.vlans (trunk_after_calls ops) = Ok listing /\
    group_for_vlan v = Ok g /\ Py.dict_get listing g = Some l /\
    (b = true <-> In v l).
Proof.
  intros Hv. destruct (trunk_after_calls_masks ops) as (masks & -> & Hf).
  destruct (group_for_vlan_spec v Hv) as (g & Eg & _).
  destruct (bit_index_eq v g Eg) as (_ & Hg & Hk & _).
  exists (Z.testbit (masks g) (v - g * VLAN_GROUP_SIZE - 1)).
  eexists. exists g.
  exists (map (vlan_at g)
            (filter (Z.testbit (masks g)) (Py.range VLAN_GROUP_SIZE))).
  split; [apply trunk_has_vlan_value; exact Eg|].
  split; [apply trunk_vlans_eq; apply bits_to_vlans_eq|].
  split; [exact Eg|]. split.
  - destruct (group_cases g Hg) as [-> | [-> | [-> | ->]]]; reflexivity.
  - symmetry. apply listed_iff_bit. exact Hk.
Qed.

Lemma trunk_has_vlan_iff_listed_witness :
  exists b listing g l,
    SnmpVlanTrunk.has_vlan (trunk_after_calls [TrunkAddVlan 5]) 5 = Ok b /\
    SnmpVlanTrunk.vlans (trunk_after_calls [TrunkAddVlan 5]) = Ok listing /\
    group_for_vlan 5 = Ok g /\ Py.dict_get listing g = Some l /\
    (b = true <-> In 5 l).
Proof. apply (trunk_has_vlan_iff_listed [TrunkAddVlan 5] 5). lia. Defined.
